(** * Result verification engine of the folding validator

    A shallow embedding of
      - [folding/rewards/evaluation_registry.py]  (class SyntheticMDEvaluator)
      - [folding/base/simulation.py]              (OpenMMSimulation.create_simulation)

    Energies and masses are IEEE binary64 values (Python [float],
    numpy [float64]) and are modelled by Rocq's primitive floats, so that
    NaN, infinities and signed zeros behave as they do in the program.
    Integration steps are integers, modelled by [Z]: those of the
    simulation handle are Python integers, those read from the log are
    numpy [int64] scalars, whose arithmetic wraps around ([Np.wrap64]).

    The evaluator reaches the physics engine, pandas and the file system
    only through calls whose results it cannot compute itself.  These
    results are collected in a record [World]: one field per external call,
    each either a value or the exception the call raises. *)

From Stdlib Require Import ZArith Floats.
From Stdlib Require Uint63.
From stdpp Require Import base list strings gmap.

Open Scope Z_scope.

(* ================================================================== *)
(** * Python values, exceptions and statements                         *)
(* ================================================================== *)

Module Py.

(** Exception classes that occur.  All of them derive from
    [Exception]; [ValidationError] is [folding.utils.ops.ValidationError],
    [LibraryError] stands for whatever OpenMM, pandas or the operating
    system raise. *)
Inductive exn_class :=
| ValidationError | TypeError | ValueError | KeyError | IndexError
| NameError | UnboundLocalError | LibraryError.

Record exn := Exn { exn_cls : exn_class; exn_msg : string }.

(** [str(E)] *)
Definition str (e : exn) : string := exn_msg e.

Inductive result (A : Type) :=
| Ok (a : A)
| Raise (e : exn).
Arguments Ok {A} a.
Arguments Raise {A} e.

(** The operand of a [raise] statement. *)
Inductive raisable :=
| RExn (e : exn)
| RStr (s : string).

(** [raise o].  Python 3 accepts only instances (or classes) derived from
    [BaseException]; for every other operand the statement itself raises
    [TypeError("exceptions must derive from BaseException")]. *)
Definition raise_stmt (o : raisable) : exn :=
  match o with
  | RExn e => e
  | RStr _ => Exn TypeError "exceptions must derive from BaseException"
  end.

(** [l[:n]] and [l[-n:]] for [n > 0] *)
Definition slice_to {A} (n : nat) (l : list A) : list A := take n l.
Definition slice_last {A} (n : nat) (l : list A) : list A :=
  drop (length l - n)%nat l.

(** [s[:n]] on strings *)
Fixpoint str_prefix (n : nat) (s : string) : string :=
  match n, s with
  | S n', String c r => String c (str_prefix n' r)
  | _, _ => EmptyString
  end.

(** the character [.] *)
Definition dot : Ascii.ascii := Ascii.ascii_of_nat 46.

Fixpoint has_dot (s : string) : bool :=
  match s with
  | EmptyString => false
  | String c r => if Ascii.eqb c dot then true else has_dot r
  end.

(** [k.split(".")[-1]] *)
Fixpoint split_dot_last (s : string) : string :=
  match s with
  | EmptyString => EmptyString
  | String c r =>
      if has_dot r then split_dot_last r
      else if Ascii.eqb c dot then r else s
  end.

(** [a != b] on floats: true as soon as one of them is NaN *)
Definition ne (a b : float) : bool := negb (a =? b)%float.

End Py.

Import Py.

(* ================================================================== *)
(** * The numpy reductions the evaluator calls                         *)
(* ================================================================== *)

Module Np.

Open Scope float_scope.

Definition isnan (x : float) : bool := negb (x =? x).

Definition of_nat (n : nat) : float := PrimFloat.of_uint63 (Uint63.of_Z (Z.of_nat n)).

(** [np.diff]: [out[i] = a[i+1] - a[i]] *)
Fixpoint diff (l : list float) : list float :=
  match l with
  | a :: (b :: _) as t => (b - a) :: diff t
  | _ => []
  end.

(** The loop numpy runs on a block of fewer than 8 elements: it starts
    from [-0.0] and adds them in order. *)
Definition sum_in_order (l : list float) (start : float) : float :=
  fold_left PrimFloat.add l start.

(** The eight accumulators of a block of 8 to 128 elements: [r[j]] starts
    as [a[j]] and takes [a[i + j]] for [i = 8, 16, ...]; [chunks] full
    groups of 8 are left in [l]. *)
Fixpoint accumulate8 (r l : list float) (chunks : nat) : list float :=
  match chunks with
  | O => r
  | S k => accumulate8 (zip_with PrimFloat.add r (take 8 l)) (drop 8 l) k
  end.

(** [((r0 + r1) + (r2 + r3)) + ((r4 + r5) + (r6 + r7))] *)
Definition combine8 (r : list float) : float :=
  let r_ (j : nat) : float := nth j r nan in
  ((r_ 0%nat + r_ 1%nat) + (r_ 2%nat + r_ 3%nat))
  + ((r_ 4%nat + r_ 5%nat) + (r_ 6%nat + r_ 7%nat)).

(** numpy's pairwise summation of a contiguous [float64] array
    ([DOUBLE_pairwise_sum]): in order below 8 elements, with eight
    accumulators up to 128, and above that the two halves (the first a
    multiple of 8 long) summed separately.  [fuel] bounds the halvings. *)
Fixpoint pairwise_sum (fuel : nat) (l : list float) : float :=
  let n := length l in
  if (n <? 8)%nat then sum_in_order l (-0)
  else if (n <=? 128)%nat then
    let full := (n - n mod 8)%nat in
    sum_in_order (drop full l)
      (combine8 (accumulate8 (take 8 l) (drop 8 (take full l)) (n / 8 - 1)))
  else
    match fuel with
    | O => nan
    | S fuel' =>
        let half := (n / 2 - (n / 2) mod 8)%nat in
        pairwise_sum fuel' (take half l) + pairwise_sum fuel' (drop half l)
    end.

(** [np.sum] of a [float64] array *)
Definition sum (l : list float) : float := pairwise_sum (length l) l.

(** [ndarray.mean]: the sum divided by the count; [nan] on an empty
    array (0/0, numpy only warns). *)
Definition mean (l : list float) : float := sum l / of_nat (length l).

(** The order numpy sorts by: NaN after every number. *)
Definition lt (a b : float) : bool := (a <? b) || (isnan b && negb (isnan a)).

Fixpoint insert (x : float) (l : list float) : list float :=
  match l with
  | [] => [x]
  | y :: t => if lt x y then x :: l else y :: insert x t
  end.

Fixpoint sort (l : list float) : list float :=
  match l with
  | [] => []
  | x :: t => insert x (sort t)
  end.

(** [np.median]: [nan] on an empty array and whenever a NaN is present,
    else the mean of the middle element of the sorted array, or of the
    two middle elements. *)
Definition median (l : list float) : float :=
  let s := sort l in
  let n := length s in
  if (n =? 0)%nat then nan
  else if existsb isnan s then nan
  else if Nat.odd n then mean [nth (n / 2) s nan]
  else mean [nth (n / 2 - 1) s nan; nth (n / 2) s nan].

(** The mask of [np.unique] over the sorted array: the first element is
    kept, a later one is kept when it differs from its predecessor, and
    the NaNs (all at the end) count as one value. *)
Fixpoint unique_from (prev : float) (l : list float) : list float :=
  match l with
  | [] => []
  | x :: t =>
      if isnan x
      then (if isnan prev then unique_from x t else x :: unique_from x t)
      else (if Py.ne x prev then x :: unique_from x t else unique_from x t)
  end.

Definition unique (l : list float) : list float :=
  match sort l with
  | [] => []
  | x :: t => x :: unique_from x t
  end.

(** Element-wise binary operation on two one-dimensional arrays with
    numpy's broadcasting: equal lengths, or one of them of length 1;
    any other pair of shapes raises [ValueError]. *)
Definition broadcast2 (f : float -> float -> float) (a b : list float)
  : result (list float) :=
  if (length a =? length b)%nat then Ok (zip_with f a b)
  else match a, b with
       | [x], _ => Ok (map (f x) b)
       | _, [y] => Ok (map (fun x => f x y) a)
       | _, _ => Raise (Exn ValueError "operands could not be broadcast together")
       end.

(** *** numpy's [int64]

    The [Step] column of the log is an [int64] array and an element of
    it a numpy [int64] scalar.  Arithmetic on such a scalar, also with a
    Python [int] that fits in 64 bits, is done in [int64] and wraps
    around modulo [2^64]; numpy only warns. *)
Definition wrap64 (z : Z) : Z := ((z + 2 ^ 63) mod 2 ^ 64 - 2 ^ 63)%Z.
Definition sub64 (a b : Z) : Z := wrap64 (a - b).
Definition add64 (a b : Z) : Z := wrap64 (a + b).

End Np.

(* ================================================================== *)
(** * SyntheticMDEvaluator                                             *)
(* ================================================================== *)

Module Evaluator.

(** [folding.utils.constants], read as [c.NAME] by the evaluator. *)
Record Constants := {
  MIN_LOGGING_ENTRIES : Z;
  MIN_SIMULATION_STEPS : Z;
  MAX_SIMULATION_STEPS_FOR_EVALUATION : Z;
  XML_CHECKPOINT_THRESHOLD : float;
  ANOMALY_THRESHOLD : float
}.

(** The two checkpoint files of a run: [<state>.cpt] and [<state>_old.cpt]. *)
Inductive checkpoint := Current | Old.

(** The three places where the evaluator asks the adapter for a fresh
    simulation: [process_md_output] (line 59), the state replay (line 196)
    and the checkpoint replay (line 216) of [is_run_valid]. *)
Inductive site := Intake | StateReplay | CheckpointReplay.

(** One verification pass as the evaluator sees it: the [data] given to
    [_evaluate] and the outcome of every external call made on it. *)
Record World := {
  (* data *)
  pdb_id : string;
  md_output : list (string * string);        (* file name -> content *)
  hotkey : string;
  state : string;
  seed : Z;
  data_pdb_location : string;                (* data["pdb_location"] *)
  (* folding.utils.ops *)
  save_files : result unit;
  load_pkl_masses : result (list float);     (* load_pkl(...)["pdb_masses"] *)
  create_velm_masses : result (list float);  (* create_velm(...)["pdb_masses"] *)
  write_pkl : result unit;                   (* only made when the file is not there yet *)
  save_pdb : result unit;
  (* the physics adapter and the simulation handle *)
  create_simulation : site -> result unit;
  (* currentStep after loading: a Python int that fits in 64 bits *)
  loadCheckpoint : checkpoint -> result Z;
  saveState : result unit;
  loadState : result unit;
  (* potential energy after the k-th [step(10)] of the state replay *)
  state_step_energy : checkpoint -> nat -> result float;
  (* [step(steps_to_run)] with the reporter attached, and the energies
     column of [check_<state>.log] read back *)
  checkpoint_replay : checkpoint -> Z -> result (list float);
  (* os.path.exists(<state>_old.cpt) *)
  old_checkpoint_exists : bool;
  (* pd.read_csv of the submitted log: rows of (step, potential energy),
     for a log whose Step column parses as int64 (every step an element of
     that type) and whose energy column parses as float64, the dtypes of a
     log the reporter wrote; a log that parses to other dtypes is not
     covered *)
  read_csv_log : result (list (Z * float))
}.

(** What goes to the logger; the two messages that format numbers keep
    them as fields. *)
Inductive log_msg :=
| Info (s : string)
| Warning (s : string)
| Error (s : string)
| ErrorMasses (i : nat) (v_mass m_mass : float)
    (* "Masses for atom {i} do not match. Validator: {v_mass}, Miner: {m_mass}" *)
| InfoRunning (steps_to_run log_step cpt_step : Z).
    (* "Running {steps_to_run} steps. log_step: ..., cpt_step: ..." *)

(** The attributes of the evaluator object that the methods assign and
    read, and the logger's output so far (oldest first). *)
Record Self := mkSelf {
  pdb_location : string;
  hotkey_alias : string;
  current_state : string;
  miner_seed : Z;
  md_outputs_exts : list (string * string);   (* extension -> file name *)
  log_file : list (Z * float);
  log_step : Z;
  cpt_step : Z;
  checkpoint_path : checkpoint;
  currentStep : Z;                  (* self.simulation.currentStep *)
  logged : list log_msg
}.

Definition fresh : Self := mkSelf "" "" "" 0 [] [] 0 0 Current 0 [].

Definition set_pdb_location v (s : Self) :=
  mkSelf v (hotkey_alias s) (current_state s) (miner_seed s)
         (md_outputs_exts s) (log_file s) (log_step s) (cpt_step s)
         (checkpoint_path s) (currentStep s) (logged s).
Definition set_hotkey_alias v (s : Self) :=
  mkSelf (pdb_location s) v (current_state s) (miner_seed s)
         (md_outputs_exts s) (log_file s) (log_step s) (cpt_step s)
         (checkpoint_path s) (currentStep s) (logged s).
Definition set_current_state v (s : Self) :=
  mkSelf (pdb_location s) (hotkey_alias s) v (miner_seed s)
         (md_outputs_exts s) (log_file s) (log_step s) (cpt_step s)
         (checkpoint_path s) (currentStep s) (logged s).
Definition set_miner_seed v (s : Self) :=
  mkSelf (pdb_location s) (hotkey_alias s) (current_state s) v
         (md_outputs_exts s) (log_file s) (log_step s) (cpt_step s)
         (checkpoint_path s) (currentStep s) (logged s).
Definition set_md_outputs_exts v (s : Self) :=
  mkSelf (pdb_location s) (hotkey_alias s) (current_state s) (miner_seed s)
         v (log_file s) (log_step s) (cpt_step s)
         (checkpoint_path s) (currentStep s) (logged s).
Definition set_log_file v (s : Self) :=
  mkSelf (pdb_location s) (hotkey_alias s) (current_state s) (miner_seed s)
         (md_outputs_exts s) v (log_step s) (cpt_step s)
         (checkpoint_path s) (currentStep s) (logged s).
Definition set_log_step v (s : Self) :=
  mkSelf (pdb_location s) (hotkey_alias s) (current_state s) (miner_seed s)
         (md_outputs_exts s) (log_file s) v (cpt_step s)
         (checkpoint_path s) (currentStep s) (logged s).
Definition set_cpt_step v (s : Self) :=
  mkSelf (pdb_location s) (hotkey_alias s) (current_state s) (miner_seed s)
         (md_outputs_exts s) (log_file s) (log_step s) v
         (checkpoint_path s) (currentStep s) (logged s).
Definition set_checkpoint_path v (s : Self) :=
  mkSelf (pdb_location s) (hotkey_alias s) (current_state s) (miner_seed s)
         (md_outputs_exts s) (log_file s) (log_step s) (cpt_step s)
         v (currentStep s) (logged s).
Definition set_currentStep v (s : Self) :=
  mkSelf (pdb_location s) (hotkey_alias s) (current_state s) (miner_seed s)
         (md_outputs_exts s) (log_file s) (log_step s) (cpt_step s)
         (checkpoint_path s) v (logged s).
Definition add_log m (s : Self) :=
  mkSelf (pdb_location s) (hotkey_alias s) (current_state s) (miner_seed s)
         (md_outputs_exts s) (log_file s) (log_step s) (cpt_step s)
         (checkpoint_path s) (currentStep s) (logged s ++ [m]).

(** ** Statements: state passing with exceptions.  An exception leaves
    the assignments made before it in place. *)

Definition M (A : Type) : Type := Self -> result A * Self.

Definition ret {A} (a : A) : M A := fun s => (Ok a, s).
Definition bind {A B} (m : M A) (k : A -> M B) : M B :=
  fun s => match m s with
           | (Ok a, s') => k a s'
           | (Raise e, s') => (Raise e, s')
           end.
Definition raise {A} (o : raisable) : M A := fun s => (Raise (raise_stmt o), s).
Definition call {A} (r : result A) : M A := fun s => (r, s).
Definition gets {A} (f : Self -> A) : M A := fun s => (Ok (f s), s).
Definition assign (f : Self -> Self) : M unit := fun s => (Ok tt, f s).
Definition logger (m : log_msg) : M unit := assign (add_log m).
(** [try: body  except Exception as E: handler E] *)
Definition try_except {A} (body : M A) (handler : exn -> M A) : M A :=
  fun s => match body s with
           | (Ok a, s') => (Ok a, s')
           | (Raise e, s') => handler e s'
           end.

Declare Scope py_scope.
Delimit Scope py_scope with py.
Notation "x <- m ;; k" := (bind m (fun x => k))
  (at level 100, m at next level, right associativity) : py_scope.
Notation "m >> k" := (bind m (fun _ => k))
  (at level 100, right associativity) : py_scope.
Open Scope py_scope.

Section Pass.

Variable c : Constants.
Variable w : World.

(** *** process_md_output, lines 24-124 *)

(** Lines 80-98: the log must be [MIN_SIMULATION_STEPS] ahead of the
    loaded checkpoint, else the old checkpoint is tried.  Evaluates to
    the checkpoint whose path line 101 stores.  [self.log_step] is the
    [int64] scalar [iloc[-1]] gave, so both differences are [int64]. *)
Definition freshness_gate : M checkpoint :=
  log_step <- gets log_step ;;
  step <- gets currentStep ;;
  alias <- gets hotkey_alias ;;
  if Np.sub64 log_step step <? MIN_SIMULATION_STEPS c then
    if old_checkpoint_exists w then
      logger (Warning ("Miner " ++ alias ++
        " did not run enough steps since last checkpoint... Loading old checkpoint")) >>
      step <- call (loadCheckpoint w Old) ;;
      assign (set_currentStep step) >>
      if Np.sub64 log_step step <? MIN_SIMULATION_STEPS c then
        raise (RExn (Exn ValidationError ("Miner " ++ alias ++
          " did not run enough steps in the simulation... Skipping!")))
      else ret Old
    else
      raise (RExn (Exn ValidationError ("Miner " ++ alias ++
        " did not run enough steps and no old checkpoint found... Skipping!")))
  else ret Current.

(** Line 34, [{k.split(".")[-1]: k for k, v in md_output.items() if len(v) > 0}]:
    extension -> file name, empty files left out *)
Definition extension_map : list (string * string) :=
  map (fun kv => (split_dot_last (fst kv), fst kv))
      (filter (fun kv => (0 <? String.length (snd kv))%nat = true) (md_output w)).

(** [ext in exts] for a mapping from extensions *)
Definition ext_in (ext : string) (exts : list (string * string)) : bool :=
  existsb (fun e => String.eqb (fst e) ext) exts.

(** [ext in self.md_outputs_exts] after line 34 *)
Definition has_ext (ext : string) : bool := ext_in ext extension_map.

(** The body of the [try] of lines 53-114. *)
Definition recreate_simulation : M unit :=
  alias <- gets hotkey_alias ;;
  current_state <- gets current_state ;;
  logger (Info ("Recreating miner " ++ alias ++ " simulation in state: " ++ current_state)) >>
  call (create_simulation w Intake) >>
  step <- call (loadCheckpoint w Current) ;;
  assign (set_currentStep step) >>
  rows <- call (read_csv_log w) ;;
  assign (set_log_file rows) >>
  last_step <- match last (map fst rows) with
               | Some x => ret x
               | None => raise (RExn (Exn IndexError "single positional indexer is out-of-bounds"))
               end ;;
  assign (set_log_step last_step) >>
  (if Z.of_nat (length rows) <? MIN_LOGGING_ENTRIES c then
     raise (RExn (Exn ValidationError ("Miner " ++ alias ++
       " did not run enough steps in the simulation... Skipping!")))
   else ret tt) >>
  path <- freshness_gate ;;
  step <- gets currentStep ;;
  assign (set_cpt_step step) >>
  assign (set_checkpoint_path path) >>
  call (saveState w) >>
  call (write_pkl w).

Definition process_md_output : M bool :=
  assign (set_pdb_location (data_pdb_location w)) >>
  assign (set_hotkey_alias (str_prefix 8 (hotkey w))) >>
  assign (set_current_state (state w)) >>
  assign (set_miner_seed (seed w)) >>
  assign (set_md_outputs_exts extension_map) >>
  alias <- gets hotkey_alias ;;
  exts <- gets md_outputs_exts ;;
  if (length (md_output w) =? 0)%nat then
    logger (Warning ("Miner " ++ alias ++ " returned empty md_output... Skipping!")) >>
    ret false
  else
    match List.find (fun ext => negb (ext_in ext exts)) ["cpt"; "log"] with
    | Some ext =>
        logger (Error ("Missing file with extension " ++ ext ++ " in md_output")) >>
        ret false
    | None =>
        call (save_files w) >>
        try_except
          (recreate_simulation >> ret true)
          (fun E =>
             match exn_cls E with
             | ValidationError => logger (Warning (str E)) >> ret false
             | _ => logger (Error ("Failed to recreate simulation: " ++ str E)) >>
                    ret false
             end)
    end.

(** *** check_masses, lines 126-145 *)

(** [for i, (v_mass, m_mass) in enumerate(zip(validator_masses, miner_masses))]
    up to the first pair with [v_mass != m_mass]. *)
Fixpoint first_mismatch (i : nat) (validator_masses miner_masses : list float)
  : option (nat * float * float) :=
  match validator_masses, miner_masses with
  | v_mass :: vs, m_mass :: ms =>
      if Py.ne v_mass m_mass then Some (i, v_mass, m_mass)
      else first_mismatch (S i) vs ms
  | _, _ => None
  end.

Definition check_masses : M bool :=
  validator_masses <- call (load_pkl_masses w) ;;
  miner_masses <- call (create_velm_masses w) ;;
  match first_mismatch 0 validator_masses miner_masses with
  | Some (i, v_mass, m_mass) => logger (ErrorMasses i v_mass m_mass) >> ret false
  | None => ret true
  end.

(** *** check_gradient, lines 147-156 *)
Definition check_gradient (check_energies : list float) : bool :=
  let WINDOW := 50%nat in
  let GRADIENT_THRESHOLD := 10%float in
  let mean_gradient := Np.mean (Np.diff (slice_to WINDOW check_energies)) in
  (mean_gradient <=? GRADIENT_THRESHOLD)%float.

(** *** compare_state_to_cpt, lines 158-176 *)
Definition compare_state_to_cpt (state_energies checkpoint_energies : list float) : bool :=
  let WINDOW := 50%nat in
  let state_median := Np.median (slice_to WINDOW state_energies) in
  let checkpoint_median := Np.median (slice_to WINDOW checkpoint_energies) in
  let percent_diff :=
    (abs ((state_median - checkpoint_median) / checkpoint_median) * 100)%float in
  if (XML_CHECKPOINT_THRESHOLD c <? percent_diff)%float then false else true.

(** *** is_run_valid, lines 178-279 *)

(** Lines 202-206: [n] rounds of [step(10)], the potential energy read
    after each; [k] is the number of rounds already done. *)
Fixpoint state_replay (cp : checkpoint) (k n : nat) : M (list float) :=
  match n with
  | O => ret []
  | S n' =>
      energy <- call (state_step_energy w cp k) ;;
      rest <- state_replay cp (S k) n' ;;
      ret (energy :: rest)
  end.

(** [abs(((check_energies - miner_energies) / miner_energies) * 100)] *)
Definition percent_diff (check_energies miner_energies : list float)
  : result (list float) :=
  Np.broadcast2 (fun x m => abs (((x - m) / m) * 100))%float
                check_energies miner_energies.

Definition outcome : Type := bool * list float * list float * string.

(** Line 192, [min(c.MAX_SIMULATION_STEPS_FOR_EVALUATION, self.log_step - self.cpt_step)]:
    the difference is an [int64]; [min] gives it when it is below the
    constant, and else the constant, a Python int. *)
Definition steps_to_run_of (log_step cpt_step : Z) : Z :=
  Z.min (MAX_SIMULATION_STEPS_FOR_EVALUATION c) (Np.sub64 log_step cpt_step).

(** Line 235, [self.cpt_step + steps_to_run]: an [int64] sum when
    [steps_to_run] is the [int64] difference, a sum of Python ints when it
    is the constant. *)
Definition add_steps (cpt_step steps_to_run : Z) : Z :=
  if steps_to_run <? MAX_SIMULATION_STEPS_FOR_EVALUATION c
  then Np.add64 cpt_step steps_to_run
  else cpt_step + steps_to_run.

(** The body of the [try] of lines 208-276. *)
Definition replay_stages (steps_to_run : Z) (state_energies : list float) : M outcome :=
  alias <- gets hotkey_alias ;;
  (if negb (check_gradient state_energies) then
     logger (Warning ("hotkey " ++ alias ++ " failed state-gradient check for " ++
                      pdb_id w ++ ", ... Skipping!")) >>
     raise (RStr "state-gradient")
   else ret tt) >>
  call (create_simulation w CheckpointReplay) >>
  cp <- gets checkpoint_path ;;
  step <- call (loadCheckpoint w cp) ;;
  assign (set_currentStep step) >>
  log_step <- gets log_step ;;
  cpt_step <- gets cpt_step ;;
  logger (InfoRunning steps_to_run log_step cpt_step) >>
  let max_step := add_steps cpt_step steps_to_run in
  rows <- gets log_file ;;
  let miner_energies :=
    map snd (filter (fun row => (cpt_step <? fst row) && (fst row <=? max_step) = true) rows) in
  check_energies <- call (checkpoint_replay w cp steps_to_run) ;;
  (if (length (Np.unique check_energies) =? 1)%nat then
     logger (Warning "All energy values in reproduced simulation are the same. Skipping!") >>
     raise (RStr "reprod-energies-identical")
   else ret tt) >>
  (if negb (check_gradient check_energies) then
     logger (Warning ("hotkey " ++ alias ++ " failed cpt-gradient check for " ++
                      pdb_id w ++ ", ... Skipping!")) >>
     raise (RStr "cpt-gradient")
   else ret tt) >>
  (if negb (compare_state_to_cpt state_energies check_energies) then
     logger (Warning ("hotkey " ++ alias ++ " failed state-checkpoint comparison for " ++
                      pdb_id w ++ ", ... Skipping!")) >>
     raise (RStr "state-checkpoint")
   else ret tt) >>
  percent_diff <- call (percent_diff check_energies miner_energies) ;;
  let median_percent_diff := Np.median percent_diff in
  (if (ANOMALY_THRESHOLD c <? median_percent_diff)%float then
     raise (RStr "anomaly")
   else ret tt) >>
  call (save_pdb w) >>
  ret (true, check_energies, miner_energies, "valid"%string).

Definition is_run_valid : M outcome :=
  log_step <- gets log_step ;;
  cpt_step <- gets cpt_step ;;
  let steps_to_run := steps_to_run_of log_step cpt_step in
  logger (Info ("Recreating simulation for " ++ pdb_id w ++ " for state-based analysis...")) >>
  call (create_simulation w StateReplay) >>
  call (loadState w) >>
  cp <- gets checkpoint_path ;;
  state_energies <- state_replay cp 0 (Z.to_nat (steps_to_run / 10)) ;;
  try_except
    (replay_stages steps_to_run state_energies)
    (fun E => ret (false, [], [], str E)).

(** *** _evaluate, lines 281-296 *)

(** [self.log_file['#"Step"'][i]]: the row labelled [i] of the column *)
Definition step_at (i : nat) : M Z :=
  rows <- gets log_file ;;
  match map fst rows !! i with
  | Some x => ret x
  | None => raise (RExn (Exn KeyError "key not found in the index"))
  end.

Definition _evaluate : M float :=
  processed <- process_md_output ;;
  if negb processed then ret 0%float else
  masses_ok <- check_masses ;;
  if negb masses_ok then ret 0%float else
  step1 <- step_at 1 ;;
  step0 <- step_at 0 ;;
  if Np.sub64 step1 step0 >? 10 then ret 0%float else
  r <- is_run_valid ;;
  let '(is_valid, checked_energies, miner_energies, result) := r in
  if negb is_valid then ret 0%float else
  ret (Np.median (slice_last 10 checked_energies)).

(** A submission passes every stage: [process_md_output] and
    [check_masses] return [True], the [int64] difference of the first two
    logged steps is at most 10, and [is_run_valid] returns a valid outcome, whose
    replay trajectory is [checked_energies]. *)
Definition accepted (s : Self) (checked_energies : list float) : Prop :=
  exists s1 s2 s3 step0 step1 miner_energies result,
    process_md_output s = (Ok true, s1) /\
    check_masses s1 = (Ok true, s2) /\
    map fst (log_file s2) !! 1%nat = Some step1 /\
    map fst (log_file s2) !! 0%nat = Some step0 /\
    Np.sub64 step1 step0 <= 10 /\
    is_run_valid s2 = (Ok (true, checked_energies, miner_energies, result), s3).

End Pass.

End Evaluator.

(* ================================================================== *)
(** * OpenMMSimulation.create_simulation                               *)
(* ================================================================== *)

Module Simulation.

(** The adapter behind [self.md_simulator].  The evaluator above is
    stated against the outcome of each of its calls ([Evaluator.World]);
    this is the function those calls run. *)

(** Values a [system_config] dictionary holds.  [VObject] is any object
    that is none of the others (an OpenMM constraint constant, an enum
    member), known by what [str] gives for it. *)
Inductive pyval :=
| VStr (s : string)
| VInt (n : Z)
| VBool (b : bool)
| VFloat (x : float)
| VDict (items : list (string * string))
| VNone
| VObject (shown : string).

(** [v if isinstance(v, (str, int, float, dict)) else str(v)]: [bool] is
    a subclass of [int], [str(None)] is ["None"]. *)
Definition plain_or_str (v : pyval) : pyval :=
  match v with
  | VStr _ | VInt _ | VBool _ | VFloat _ | VDict _ => v
  | VNone => VStr "None"
  | VObject shown => VStr shown
  end.

(** [n > x] for an integer and a float, compared exactly as Python does. *)
Definition int_gt_float (n : Z) (x : float) : bool :=
  match Prim2SF x with
  | S754_zero _ => 0 <? n
  | S754_infinity negative => negative
  | S754_nan => false
  | S754_finite negative m e =>
      let m := if negative then Z.neg m else Z.pos m in
      if 0 <=? e then m * 2 ^ e <? n else m <? n * 2 ^ (- e)
  end.

(** [v > t] where [t] is a float *)
Definition gt_float (v : pyval) (t : float) : result bool :=
  match v with
  | VFloat x => Ok (t <? x)%float
  | VInt n => Ok (int_gt_float n t)
  | VBool b => Ok (int_gt_float (if b then 1 else 0) t)
  | VStr _ | VDict _ | VNone | VObject _ =>
      Raise (Exn TypeError "'>' not supported between these instances")
  end.

(** The calls into OpenMM, torch and pydantic, each with the outcome it
    has for the arguments it is given. *)
Record Engine := {
  ForceField : pyval -> pyval -> result unit;
  Modeller : result unit;                 (* Modeller, deleteWater, addHydrogens *)
  addSolvent : pyval -> pyval -> result unit;
  (* pdb.topology.getUnitCellDimensions().min().value_in_unit(nanometers) *)
  min_box_dimension : result float;
  createSystem : pyval -> pyval -> result unit;  (* cutoff, constraints *)
  LangevinIntegrator : pyval -> pyval -> pyval -> result unit;
  setRandomNumberSeed : pyval -> result unit;
  getPlatformByName : result unit;
  get_idle_gpus : result (list Z);
  new_Simulation : Z -> result unit;      (* with the device index *)
  setPositions : result unit;
  SimulationConfig : gmap string pyval -> result unit
}.

(** The names bound in the module [folding/base/simulation.py]: its
    imports (lines 1-13) and its definitions. *)
Definition module_names : list string :=
  ["ABC"; "abstractmethod"; "time"; "Tuple"; "functools"; "mm"; "app"; "unit";
   "torch"; "SimulationConfig"; "logger"; "get_idle_gpus"; "first_number";
   "GenericSimulation"; "OpenMMSimulation"].

(** The dictionary is the caller's object: statements run on it in place. *)
Definition M (A : Type) : Type := gmap string pyval -> result A * gmap string pyval.

Definition ret {A} (a : A) : M A := fun d => (Ok a, d).
Definition bind {A B} (m : M A) (k : A -> M B) : M B :=
  fun d => match m d with
           | (Ok a, d') => k a d'
           | (Raise e, d') => (Raise e, d')
           end.
Definition throw {A} (e : exn) : M A := fun d => (Raise e, d).
Definition call {A} (r : result A) : M A := fun d => (r, d).
(** [system_config[k]] *)
Definition getitem (k : string) : M pyval :=
  fun d => match d !! k with
           | Some v => (Ok v, d)
           | None => (Raise (Exn KeyError k), d)
           end.
(** [system_config[k] = v] *)
Definition setitem (k : string) (v : pyval) : M unit := fun d => (Ok tt, <[k := v]> d).
(** A name that is not a local of the function: looked up in the module. *)
Definition load_global (name : string) : M unit :=
  if bool_decide (name ∈ module_names) then ret tt
  else throw (Exn NameError ("name '" ++ name ++ "' is not defined")).
(** A local of the function: unbound until the function assigns it. *)
Definition load_local {A} (name : string) (binding : option A) : M A :=
  match binding with
  | Some v => ret v
  | None => throw (Exn UnboundLocalError
              ("cannot access local variable '" ++ name ++
               "' where it is not associated with a value"))
  end.

Declare Scope sim_scope.
Delimit Scope sim_scope with sim.
Notation "x <- m ;; k" := (bind m (fun x => k))
  (at level 100, m at next level, right associativity) : sim_scope.
Notation "m >> k" := (bind m (fun _ => k))
  (at level 100, right associativity) : sim_scope.
Open Scope sim_scope.

(** [arr[0] if arr else -1] *)
Definition first_number (arr : list Z) : Z :=
  match arr with
  | x :: _ => x
  | [] => -1
  end.

(** Lines 186-189: every value that is not a [str], [int], [float] or
    [dict] is replaced by its [str]. *)
Definition stringify_values : M unit :=
  fun d => (Ok tt, plain_or_str <$> d).

Section Create.

Variable env : Engine.
Variable seed : option Z.
Variable verbose : bool.

(** Lines 70-195.  [static_id] is assigned in the body (line 161), which
    makes it a local of the function, unbound where line 160 reads it;
    [logging] is read at line 164 and bound nowhere. *)
Definition create_simulation : M unit :=
  let static_id : option Z := None in
  ff <- getitem "ff" ;;
  water <- getitem "water" ;;
  call (ForceField env ff water) >>
  call (Modeller env) >>
  box_padding <- getitem "box_padding" ;;
  box <- getitem "box" ;;
  call (addSolvent env box_padding box) >>
  min_dimension <- call (min_box_dimension env) ;;
  let threshold := (min_dimension / 2)%float in
  cutoff <- getitem "cutoff" ;;
  exceeds <- call (gt_float cutoff threshold) ;;
  nonbondedCutoff <-
    (if exceeds : bool then
       setitem "cutoff" (VFloat threshold) >>
       ret (VFloat threshold)
     else getitem "cutoff") ;;
  constraints <- getitem "constraints" ;;
  call (createSystem env nonbondedCutoff constraints) >>
  temperature <- getitem "temperature" ;;
  friction <- getitem "friction" ;;
  time_step_size <- getitem "time_step_size" ;;
  call (LangevinIntegrator env temperature friction time_step_size) >>
  seed <- match seed with
          | Some n => ret (VInt n)
          | None => getitem "seed"
          end ;;
  call (setRandomNumberSeed env seed) >>
  call (getPlatformByName env) >>
  idle <- call (get_idle_gpus env) ;;
  deviceIndex <-
    (if first_number idle =? -1 then load_local "static_id" static_id
     else ret (first_number idle)) ;;
  load_global "logging" >>
  call (new_Simulation env deviceIndex) >>
  call (setPositions env) >>
  stringify_values >>
  (if verbose then throw (Exn ValueError "too many values to unpack (expected 2)")
   else ret tt) >>
  fun d => (SimulationConfig env d, d).

End Create.

End Simulation.

(* ================================================================== *)
(** * Concrete verification passes                                     *)
(* ================================================================== *)

Module Scenario.
Import Evaluator.

(** The constants of the scenarios of the specification:
    [MIN_SIMULATION_STEPS = 50], a state/checkpoint tolerance of 5 percent. *)
Definition consts : Constants := {|
  MIN_LOGGING_ENTRIES := 5;
  MIN_SIMULATION_STEPS := 50;
  MAX_SIMULATION_STEPS_FOR_EVALUATION := 1000;
  XML_CHECKPOINT_THRESHOLD := 5;
  ANOMALY_THRESHOLD := 0.5
|}.

(** Potential energy the worker logs at its [k]-th sample (step [10 k]):
    [-(5000 + k)] kJ/mole. *)
Definition energy (k : nat) : float := (- (5000 + Np.of_nat k))%float.

(** What the verifier's engine computes for the same sample: a quarter
    of a kJ/mole lower. *)
Definition replayed (k : nat) : float := (energy k - 0.25)%float.

(** The worker's log: a row every 10 steps from step 0 to step 1000. *)
Definition full_log : list (Z * float) :=
  map (fun k => (10 * Z.of_nat k, energy k)) (seq 0 101).

(** A pass in which every library call succeeds, given the step of the
    submitted checkpoint, the step of the old checkpoint if there is one,
    the parsed log, and the energies of the two replays. *)
Definition pass (cpt : Z) (old : option Z) (log : list (Z * float))
    (state_energy : nat -> float) (replay : list float) : World := {|
  pdb_id := "1ubq";
  md_output := [("md_0_1.cpt", "checkpoint-bytes"); ("md_0_1.log", "log-bytes")];
  hotkey := "5F3sa2TJAWMqDhXG6jhV4N8ko9SxwGy8TpaNS1repo5EYjQX";
  state := "md_0_1";
  seed := 1337;
  data_pdb_location := "1ubq/1ubq.pdb";
  save_files := Ok tt;
  load_pkl_masses := Ok [14; 12; 1; 16]%float;
  create_velm_masses := Ok [14; 12; 1; 16]%float;
  write_pkl := Ok tt;
  save_pdb := Ok tt;
  create_simulation := fun _ => Ok tt;
  loadCheckpoint := fun cp => match cp with
                              | Current => Ok cpt
                              | Old => Ok (default 0 old)
                              end;
  saveState := Ok tt;
  loadState := Ok tt;
  state_step_energy := fun _ k => Ok (state_energy k);
  checkpoint_replay := fun _ _ => Ok replay;
  old_checkpoint_exists := bool_decide (is_Some old);
  read_csv_log := Ok log
|}.

(** Checkpoint at step 900, log up to step 1000: 100 steps are replayed,
    10 samples each. *)
Definition honest : World :=
  pass 900 None full_log (fun k => replayed (91 + k)) (map replayed (seq 91 10)).


(** Checkpoint at step 980, log up to step 1000, no old checkpoint. *)
Definition stale : World :=
  pass 980 None full_log (fun k => replayed (99 + k)) (map replayed (seq 99 2)).

(** Checkpoint at step 980, old checkpoint at step 900. *)
Definition stale_with_old : World :=
  pass 980 (Some 900) full_log (fun k => replayed (91 + k)) (map replayed (seq 91 10)).

(** The five replay stages, each failing alone. *)
Definition exploding_state : World :=
  pass 900 None full_log (fun k => (100 * Np.of_nat k)%float) (map replayed (seq 91 10)).
Definition frozen_replay : World :=
  pass 900 None full_log (fun k => replayed (91 + k)) (replicate 10 (-5090.25)%float).
Definition exploding_replay : World :=
  pass 900 None full_log (fun k => replayed (91 + k))
       (map (fun k => (100 * Np.of_nat k)%float) (seq 91 10)).
Definition desynchronised : World :=
  pass 900 None full_log (fun k => (2 * replayed (91 + k))%float) (map replayed (seq 91 10)).
Definition fabricated_log : World :=
  pass 900 None (map (fun row => (fst row, (snd row - 1000)%float)) full_log)
       (fun k => replayed (91 + k)) (map replayed (seq 91 10)).

(** The state replay explodes and the checkpoint replay would be frozen. *)
Definition exploding_and_frozen : World :=
  pass 900 None full_log (fun k => (100 * Np.of_nat k)%float) (replicate 10 (-5090.25)%float).

(** [honest], except that the adapter fails when the state replay asks
    for its simulation (line 196). *)
Definition no_device : World := {|
  pdb_id := pdb_id honest;
  md_output := md_output honest;
  hotkey := hotkey honest;
  state := state honest;
  seed := seed honest;
  data_pdb_location := data_pdb_location honest;
  save_files := save_files honest;
  load_pkl_masses := load_pkl_masses honest;
  create_velm_masses := create_velm_masses honest;
  write_pkl := write_pkl honest;
  save_pdb := save_pdb honest;
  create_simulation := fun at_ => match at_ with
                                  | StateReplay =>
                                      Raise (Exn LibraryError "No compatible CUDA device is available")
                                  | _ => Ok tt
                                  end;
  loadCheckpoint := loadCheckpoint honest;
  saveState := saveState honest;
  loadState := loadState honest;
  state_step_energy := state_step_energy honest;
  checkpoint_replay := checkpoint_replay honest;
  old_checkpoint_exists := old_checkpoint_exists honest;
  read_csv_log := read_csv_log honest
|}.

(** [w] with other masses on the two sides of the mass check. *)
Definition with_masses (w : World) (validator_masses miner_masses : list float) : World := {|
  pdb_id := pdb_id w;
  md_output := md_output w;
  hotkey := hotkey w;
  state := state w;
  seed := seed w;
  data_pdb_location := data_pdb_location w;
  save_files := save_files w;
  load_pkl_masses := Ok validator_masses;
  create_velm_masses := Ok miner_masses;
  write_pkl := write_pkl w;
  save_pdb := save_pdb w;
  create_simulation := create_simulation w;
  loadCheckpoint := loadCheckpoint w;
  saveState := saveState w;
  loadState := loadState w;
  state_step_energy := state_step_energy w;
  checkpoint_replay := checkpoint_replay w;
  old_checkpoint_exists := old_checkpoint_exists w;
  read_csv_log := read_csv_log w
|}.


(** A log whose last row carries the least [int64] as its step, with a
    checkpoint at step 980 and no old checkpoint. *)
Definition overflowing_log : list (Z * float) :=
  take 100 full_log ++ [(- 2 ^ 63, energy 100)].
Definition overflowing : World :=
  pass 980 None overflowing_log (fun k => replayed (91 + k)) (map replayed (seq 91 10)).

(** The evaluator object once the submitted checkpoint (at [cpt]) and a
    log ending at step 1000 are loaded, where the freshness gate starts. *)
Definition at_gate (cpt : Z) : Self :=
  set_log_step 1000 (set_currentStep cpt (set_hotkey_alias "5F3sa2TJ" fresh)).

(** The evaluator object after [process_md_output] and [check_masses]. *)
Definition after_intake (w : World) : Self :=
  snd (check_masses w (snd (process_md_output consts w fresh))).

(** *** Engine construction *)

(** An engine every call of which succeeds, on a periodic box whose
    smallest dimension is 2 nm, with the given idle GPUs. *)
Definition engine (idle : list Z) : Simulation.Engine := {|
  Simulation.ForceField := fun _ _ => Ok tt;
  Simulation.Modeller := Ok tt;
  Simulation.addSolvent := fun _ _ => Ok tt;
  Simulation.min_box_dimension := Ok 2%float;
  Simulation.createSystem := fun _ _ => Ok tt;
  Simulation.LangevinIntegrator := fun _ _ _ => Ok tt;
  Simulation.setRandomNumberSeed := fun _ => Ok tt;
  Simulation.getPlatformByName := Ok tt;
  Simulation.get_idle_gpus := Ok idle;
  Simulation.new_Simulation := fun _ => Ok tt;
  Simulation.setPositions := Ok tt;
  Simulation.SimulationConfig := fun _ => Ok tt
|}.

(** A parameter set whose cutoff, 1.5 nm, exceeds half the box. *)
Definition config : gmap string Simulation.pyval :=
  list_to_map
    [("ff", Simulation.VStr "charmm36.xml");
     ("water", Simulation.VStr "charmm36/water.xml");
     ("box", Simulation.VStr "cube");
     ("box_padding", Simulation.VFloat 1);
     ("cutoff", Simulation.VFloat 1.5);
     ("constraints", Simulation.VObject "HBonds");
     ("temperature", Simulation.VFloat 300);
     ("friction", Simulation.VInt 1);
     ("time_step_size", Simulation.VFloat 0.001953125);
     ("seed", Simulation.VNone)].

End Scenario.

(* ================================================================== *)
(** * get_idle_gpus (folding/base/simulation.py, lines 15-41)          *)
(* ================================================================== *)

Module Gpu.

(** What [torch.cuda] reports: the number of devices, and for a device
    index below it the total memory (never 0) and the memory allocated, in
    bytes. *)
Record Torch := {
  device_count : nat;
  total_memory : nat -> positive;
  memory_allocated : nat -> N
}.

(** [used_memory / total_memory]: the quotient of two integers as a float
    (both are below 2^53, so each is converted exactly). *)
Definition memory_fraction (t : Torch) (i : nat) : float :=
  (PrimFloat.of_uint63 (Uint63.of_Z (Z.of_N (memory_allocated t i))) /
   PrimFloat.of_uint63 (Uint63.of_Z (Z.pos (total_memory t i))))%float.

(** The loop of lines 28-34 from device [i] on, [n] devices left. *)
Fixpoint idle_from (t : Torch) (threshold : float) (i n : nat) : list Z :=
  match n with
  | O => []
  | S n' =>
      if (memory_fraction t i <? threshold)%float
      then Z.of_nat i :: idle_from t threshold (S i) n'
      else idle_from t threshold (S i) n'
  end.

Definition get_idle_gpus (t : Torch) (threshold : float) : list Z :=
  idle_from t threshold 0 (device_count t).

End Gpu.

(* ================================================================== *)
(** * EvaluationRegistry (evaluation_registry.py, lines 298-353)       *)
(* ================================================================== *)

Module Registry.

Inductive evaluator :=
| SyntheticMDEvaluator | OrganicMDEvaluator | SyntheticMLEvaluator | OrganicMLEvaluator.

Definition class_name (cls : evaluator) : string :=
  match cls with
  | SyntheticMDEvaluator => "SyntheticMDEvaluator"
  | OrganicMDEvaluator => "OrganicMDEvaluator"
  | SyntheticMLEvaluator => "SyntheticMLEvaluator"
  | OrganicMLEvaluator => "OrganicMLEvaluator"
  end.

(** [name()] *)
Definition name (e : evaluator) : string :=
  match e with
  | SyntheticMDEvaluator => "SyntheticMDReward"
  | OrganicMDEvaluator => "OrganicMDReward"
  | SyntheticMLEvaluator => "SyntheticMLReward"
  | OrganicMLEvaluator => "OrganicMLReward"
  end.

(** The parameters of [__init__] after [self] that have no default value:
    [pdb_id] for [SyntheticMDEvaluator] (line 18), none for the others
    ([priority] has the default 1). *)
Definition required_parameters (cls : evaluator) : list string :=
  match cls with
  | SyntheticMDEvaluator => ["pdb_id"]
  | OrganicMDEvaluator | SyntheticMLEvaluator | OrganicMLEvaluator => []
  end.

Section Init.

(** [BaseEvaluator] (folding/base/evaluation.py) is not among the sources:
    whether it leaves a class with an abstract method that the class does
    not define is a parameter. *)
Variable abstract : evaluator -> bool.

(** [pipe()]: the class called without arguments. *)
Definition instantiate (cls : evaluator) : result evaluator :=
  if abstract cls then
    Raise (Exn TypeError ("Can't instantiate abstract class " ++ class_name cls))
  else
    match required_parameters cls with
    | [] => Ok cls
    | parameter :: _ =>
        Raise (Exn TypeError (class_name cls ++
                 ".__init__() missing required positional argument: '" ++ parameter ++ "'"))
    end.

(** Lines 350-352: [for pipe in evaluation_pipelines: self.tasks.append(pipe().name())] *)
Fixpoint append_names (pipelines : list evaluator) (tasks : list string)
  : result (list string) :=
  match pipelines with
  | [] => Ok tasks
  | pipe :: rest =>
      match instantiate pipe with
      | Ok e => append_names rest (tasks ++ [name e])
      | Raise E => Raise E
      end
  end.

(** [EvaluationRegistry.__init__]; the result is [self.tasks]. *)
Definition EvaluationRegistry_init : result (list string) :=
  append_names
    [SyntheticMDEvaluator; OrganicMDEvaluator; SyntheticMLEvaluator; OrganicMLEvaluator] [].

End Init.

End Registry.

(* ================================================================== *)
(** * Validator cooldown (folding_api/validator_registry.py)           *)
(* ================================================================== *)

Module Validators.

Record Validator := mkValidator {
  uid : Z;
  stake : float;
  address : string;
  hotkey : string;
  timeout : Z;              (* default 1 *)
  available_at : float      (* default 0.0 *)
}.

(** [float(n)] for an integer below 2^63 in absolute value *)
Definition float_of_int (n : Z) : float :=
  if n <? 0 then (- PrimFloat.of_uint63 (Uint63.of_Z (- n)))%float
  else PrimFloat.of_uint63 (Uint63.of_Z n).

(** [update_failure], lines 24-39; [current_time] is what [time.time()]
    returns. *)
Definition update_failure (current_time : float) (status_code : Z) (v : Validator)
  : Validator :=
  if status_code =? 200 then
    mkValidator (uid v) (stake v) (address v) (hotkey v) 1 current_time
  else
    let timeout' := Z.min (timeout v * 4) 86400 in
    mkValidator (uid v) (stake v) (address v) (hotkey v) timeout'
                (current_time + float_of_int timeout')%float.

(** [is_available], lines 41-45 *)
Definition is_available (now : float) (v : Validator) : bool :=
  (available_at v <=? now)%float.

(** [update_validators], lines 109-116, on the dictionary [self.validators] *)
Definition update_validators (current_time : float) (uid : Z) (response_code : Z)
    (validators : gmap Z Validator) : gmap Z Validator :=
  match validators !! uid with
  | Some v => <[uid := update_failure current_time response_code v]> validators
  | None => validators
  end.

(** The validator after a sequence of responses, each with the time at
    which it is recorded. *)
Definition after_responses (responses : list (float * Z)) (v : Validator) : Validator :=
  fold_left (fun v r => update_failure (fst r) (snd r) v) responses v.

End Validators.

(* ================================================================== *)
(** * More verification passes                                         *)
(* ================================================================== *)

Module MoreScenarios.
Import Evaluator Scenario.

(** [w] with other submitted files and other outcomes of [save_files] and
    of the adapter. *)
Definition resubmitted (w : World) (files : list (string * string))
    (saved : result unit) (built : site -> result unit) : World := {|
  pdb_id := pdb_id w;
  md_output := files;
  hotkey := hotkey w;
  state := state w;
  seed := seed w;
  data_pdb_location := data_pdb_location w;
  save_files := saved;
  load_pkl_masses := load_pkl_masses w;
  create_velm_masses := create_velm_masses w;
  write_pkl := write_pkl w;
  save_pdb := save_pdb w;
  create_simulation := built;
  loadCheckpoint := loadCheckpoint w;
  saveState := saveState w;
  loadState := loadState w;
  state_step_energy := state_step_energy w;
  checkpoint_replay := checkpoint_replay w;
  old_checkpoint_exists := old_checkpoint_exists w;
  read_csv_log := read_csv_log w
|}.

(** A submission whose checkpoint file is empty, on a machine where
    nothing can be saved and no simulation can be built. *)
Definition empty_checkpoint : World :=
  resubmitted honest [("md_0_1.cpt", ""); ("md_0_1.log", "log-bytes")]
    (Raise (Exn LibraryError "No space left on device"))
    (fun _ => Raise (Exn LibraryError "No compatible CUDA device is available")).

(** The honest submission when its files cannot be saved. *)
Definition disk_full : World :=
  resubmitted honest (md_output honest)
    (Raise (Exn LibraryError "No space left on device")) (create_simulation honest).

(** The honest submission verified through [OpenMMSimulation]: what the
    adapter returns is what [Simulation.create_simulation] does. *)
Definition through_openmm : World :=
  resubmitted honest (md_output honest) (Ok tt)
    (fun _ => fst (Simulation.create_simulation (engine [0]) (Some 7) false config)).

(** A worker that logged every 5 steps: 20 rows fall into the replayed
    window, the replay has 10 samples. *)
Definition fine_log : list (Z * float) :=
  map (fun k => (5 * Z.of_nat k, energy (k / 2))) (seq 0 201).
Definition fine : World :=
  pass 900 None fine_log (fun k => replayed (91 + k)) (map replayed (seq 91 10)).

(** The files of a submission whose log is called [log] and whose
    checkpoint has two dots in its name. *)
Definition renamed : World :=
  resubmitted honest [("run.2.cpt", "checkpoint-bytes"); ("log", "log-bytes")]
    (Ok tt) (create_simulation honest).

(** A worker that submitted the first three rows of its log only. *)
Definition three_rows : World :=
  pass 900 None (take 3 full_log) (fun k => replayed (91 + k)) (map replayed (seq 91 10)).

(** A validator as [create_validator_list] makes it, and [n] responses
    503 recorded a minute apart. *)
Definition new_validator : Validators.Validator :=
  Validators.mkValidator 7 20000 "203.0.113.5:8091"
    "5F3sa2TJAWMqDhXG6jhV4N8ko9SxwGy8TpaNS1repo5EYjQX" 1 0.
Definition failures (n : nat) : list (float * Z) :=
  map (fun k => ((1700000000 + 60 * Np.of_nat k)%float, 503)) (seq 0 n).

(** The evaluator object of a run whose checkpoint is 10 steps behind its
    log. *)
Definition ten_steps_behind : Self := set_cpt_step 990 (at_gate 990).

(** [env] with other outcomes for the construction of the [Simulation],
    for [setPositions] and for the [SimulationConfig] of the return. *)
Definition with_construction (env : Simulation.Engine)
    (built : Z -> result unit) (positioned : result unit)
    (validated : gmap string Simulation.pyval -> result unit) : Simulation.Engine := {|
  Simulation.ForceField := Simulation.ForceField env;
  Simulation.Modeller := Simulation.Modeller env;
  Simulation.addSolvent := Simulation.addSolvent env;
  Simulation.min_box_dimension := Simulation.min_box_dimension env;
  Simulation.createSystem := Simulation.createSystem env;
  Simulation.LangevinIntegrator := Simulation.LangevinIntegrator env;
  Simulation.setRandomNumberSeed := Simulation.setRandomNumberSeed env;
  Simulation.getPlatformByName := Simulation.getPlatformByName env;
  Simulation.get_idle_gpus := Simulation.get_idle_gpus env;
  Simulation.new_Simulation := built;
  Simulation.setPositions := positioned;
  Simulation.SimulationConfig := validated
|}.

End MoreScenarios.

(* ================================================================== *)
(** * Properties                                                       *)
(* ================================================================== *)

Import Evaluator.

(** Unfolds the statements of the evaluator down to state passing. *)
Ltac run :=
  repeat (progress (cbv beta iota delta
            [Evaluator.bind Evaluator.ret Evaluator.call Evaluator.gets Evaluator.assign
             Evaluator.logger Evaluator.raise Evaluator.try_except];
          cbn beta iota delta
            [pdb_location hotkey_alias current_state miner_seed md_outputs_exts
             log_file log_step cpt_step checkpoint_path currentStep logged
             add_log set_pdb_location set_hotkey_alias set_current_state set_miner_seed
             set_md_outputs_exts set_log_file set_log_step set_cpt_step
             set_checkpoint_path set_currentStep fst snd negb])).

(** ** The mass check *)

Section MassCheck.

Implicit Types validator_masses miner_masses : list float.

Lemma first_mismatch_none k validator_masses miner_masses :
  (forall i a b, validator_masses !! i = Some a -> miner_masses !! i = Some b ->
                 Py.ne a b = false) ->
  first_mismatch k validator_masses miner_masses = None.
Proof.
  revert k miner_masses.
  induction validator_masses as [|x v IH]; intros k [|y m] H; simpl; try done.
  rewrite (H 0%nat x y) by done.
  apply IH. intros i a b Ha Hb. by apply (H (S i)).
Qed.

Lemma first_mismatch_at k validator_masses miner_masses i a b :
  validator_masses !! i = Some a ->
  miner_masses !! i = Some b ->
  Py.ne a b = true ->
  (forall j x y, (j < i)%nat -> validator_masses !! j = Some x ->
                 miner_masses !! j = Some y -> Py.ne x y = false) ->
  first_mismatch k validator_masses miner_masses = Some ((k + i)%nat, a, b).
Proof.
  revert k validator_masses miner_masses.
  induction i as [|i IH]; intros k [|x v] [|y m] Ha Hb Hne Hbefore;
    simplify_eq/=.
  - by rewrite Hne, Nat.add_0_r.
  - rewrite (Hbefore 0%nat x y) by (done || lia).
    rewrite (IH (S k) v m) by
      (eauto; intros j ? ? ? ? ?; apply (Hbefore (S j)); (done || lia)).
    do 3 f_equal. lia.
Qed.

(** A mismatch that [first_mismatch] reports is at an index both
    sequences have, and no earlier index mismatches. *)
Lemma first_mismatch_least k validator_masses miner_masses i a b :
  first_mismatch k validator_masses miner_masses = Some (i, a, b) ->
  exists j, i = (k + j)%nat /\
    validator_masses !! j = Some a /\ miner_masses !! j = Some b /\
    Py.ne a b = true /\
    forall j' x y, (j' < j)%nat -> validator_masses !! j' = Some x ->
                   miner_masses !! j' = Some y -> Py.ne x y = false.
Proof.
  revert k miner_masses.
  induction validator_masses as [|x v IH]; intros k [|y m] H; simplify_eq/=.
  destruct (Py.ne x y) eqn:Hxy.
  - simplify_eq. exists 0%nat. repeat split; try done; try lia.
  - destruct (IH _ _ H) as (j & -> & Ha & Hb & Hne & Hbefore).
    exists (S j). repeat split; try done; try lia.
    intros [|j'] x' y' Hlt Hx Hy; simplify_eq/=; first done.
    apply (Hbefore j'); (done || lia).
Qed.

End MassCheck.

(** C7. [check_masses] compares the two mass sequences position by
    position with [!=] and stops at the first pair that differs: when the
    masses of the reconstructed simulation are the reference masses with
    exactly one value altered, it returns [False] and the error it logs
    names the index of that value, with the two masses. *)
Theorem check_masses_single_alteration
    (w : World) (s : Self) (reference : list float) (i : nat) (mass altered : float) :
  load_pkl_masses w = Ok reference ->
  create_velm_masses w = Ok (<[i := altered]> reference) ->
  (forall j y, reference !! j = Some y -> Py.ne y y = false) ->
  reference !! i = Some mass ->
  Py.ne mass altered = true ->
  check_masses w s = (Ok false, add_log (ErrorMasses i mass altered) s).
Proof.
  intros Hv Hm Hnum Hi Hne.
  unfold check_masses. run. rewrite Hv, Hm.
  rewrite (first_mismatch_at 0 reference (<[i := altered]> reference) i mass altered);
    try done.
  - apply list_lookup_insert_eq. by eapply lookup_lt_Some.
  - intros j x y Hlt Hx Hy.
    rewrite list_lookup_insert_ne in Hy by lia.
    simplify_eq. by eapply Hnum.
Qed.

(** C9. [zip] stops at the shorter sequence: when the two mass sequences
    are equal at every index they share, [check_masses] returns [True]
    whatever their lengths. *)
Theorem check_masses_common_prefix
    (w : World) (s : Self) (validator_masses miner_masses : list float) :
  load_pkl_masses w = Ok validator_masses ->
  create_velm_masses w = Ok miner_masses ->
  (forall i a b, validator_masses !! i = Some a -> miner_masses !! i = Some b ->
                 Py.ne a b = false) ->
  check_masses w s = (Ok true, s).
Proof.
  intros Hv Hm Heq.
  unfold check_masses. run. rewrite Hv, Hm.
  by rewrite first_mismatch_none.
Qed.

(** ** The replay stages *)

Section Replay.

Variable c : Constants.
Variable w : World.

(** The state replay only calls the engine. *)
Lemma state_replay_self cp k n s : snd (state_replay w cp k n s) = s.
Proof.
  revert k. induction n as [|n IH]; intros k; simpl; first done.
  run. destruct (state_step_energy w cp k); simpl; last done.
  specialize (IH (S k)).
  destruct (state_replay w cp (S k) n s) as [[|] s']; simpl in *; by subst.
Qed.

(** When the [try] body of [is_run_valid] runs to its [return], the
    outcome is valid, its replay trajectory is the one read back from the
    verifier's own checkpoint replay, and its worker trajectory is the part
    of the log after the checkpoint. *)
Lemma replay_stages_returns steps_to_run state_energies s r s' :
  replay_stages c w steps_to_run state_energies s = (Ok r, s') ->
  exists check_energies,
    checkpoint_replay w (checkpoint_path s) steps_to_run = Ok check_energies /\
    r = (true, check_energies,
         map snd (filter (fun row => (cpt_step s <? fst row) &&
                                     (fst row <=? add_steps c (cpt_step s) steps_to_run) = true)
                         (log_file s)),
         "valid"%string).
Proof.
  unfold replay_stages. run. intros H.
  repeat (case_match; simplify_eq/=; try done).
  eauto.
Qed.

(** What [is_run_valid] returns when its [try] body raises. *)
Lemma is_run_valid_cases s r s' :
  is_run_valid c w s = (Ok r, s') ->
  (exists E, r = (false, [], [], Py.str E)) \/
  (exists check_energies,
      checkpoint_replay w (checkpoint_path s)
        (steps_to_run_of c (log_step s) (cpt_step s))
        = Ok check_energies /\
      r = (true, check_energies,
           map snd (filter (fun row => (cpt_step s <? fst row) &&
                     (fst row <=? add_steps c (cpt_step s)
                        (steps_to_run_of c (log_step s) (cpt_step s))) = true)
                   (log_file s)),
           "valid"%string)).
Proof.
  unfold is_run_valid. run. intros H.
  destruct (create_simulation w StateReplay); simplify_eq/=.
  destruct (loadState w); simplify_eq/=.
  match type of H with context [state_replay w ?cp ?k ?n ?s0] =>
    pose proof (state_replay_self cp k n s0) as Hs;
    destruct (state_replay w cp k n s0) as [[state_energies|] s1]
  end; simplify_eq/=.
  match type of H with context [replay_stages c w ?n ?se ?s0] =>
    destruct (replay_stages c w n se s0) as [[r0|E] s2] eqn:Hbody
  end; simplify_eq/=.
  - right. apply replay_stages_returns in Hbody as (ce & Hce & ->). eauto.
  - left. eauto.
Qed.

End Replay.

(** C10. An outcome of [is_run_valid] that is not valid carries two empty
    trajectories: whatever the replay stages had computed when one of them
    failed is dropped, and only the reason string is returned. *)
Theorem is_run_valid_rejected_trajectories_empty
    (c : Constants) (w : World) (s s' : Self)
    (check_energies miner_energies : list float) (reason : string) :
  is_run_valid c w s = (Ok (false, check_energies, miner_energies, reason), s') ->
  check_energies = [] /\ miner_energies = [].
Proof.
  intros H. apply is_run_valid_cases in H as [[E H]|(ce & _ & H)]; by simplify_eq.
Qed.

(** ** The checkpoint-freshness gate *)



(** The gate on the lag as line 82 computes it, the [int64] difference
    [lag = log_step - currentStep] after the submitted checkpoint is
    loaded: it passes on that checkpoint when
    [lag >= MIN_SIMULATION_STEPS]; otherwise it loads the old checkpoint
    when the file exists and passes on it when the lag to it reaches the
    same threshold; with no old checkpoint, or with the lag to the old one
    below the threshold too, it raises the [ValidationError] of line 95,
    respectively line 91. *)
Lemma freshness_gate_decision
    (c : Constants) (w : World) (s : Self) (old_step : Z) :
  (old_checkpoint_exists w = true -> loadCheckpoint w Old = Ok old_step) ->
  let lag := Np.sub64 (log_step s) (currentStep s) in
  let old_lag := Np.sub64 (log_step s) old_step in
  (MIN_SIMULATION_STEPS c <= lag -> freshness_gate c w s = (Ok Current, s)) /\
  (lag < MIN_SIMULATION_STEPS c -> old_checkpoint_exists w = true ->
   MIN_SIMULATION_STEPS c <= old_lag ->
   exists s', freshness_gate c w s = (Ok Old, s') /\ currentStep s' = old_step) /\
  (lag < MIN_SIMULATION_STEPS c -> old_checkpoint_exists w = false ->
   freshness_gate c w s
   = (Raise (Exn ValidationError ("Miner " ++ hotkey_alias s ++
        " did not run enough steps and no old checkpoint found... Skipping!")), s)) /\
  (lag < MIN_SIMULATION_STEPS c -> old_checkpoint_exists w = true ->
   old_lag < MIN_SIMULATION_STEPS c ->
   exists s', freshness_gate c w s
   = (Raise (Exn ValidationError ("Miner " ++ hotkey_alias s ++
        " did not run enough steps in the simulation... Skipping!")), s') /\
   currentStep s' = old_step).
Proof.
  intros Hold lag old_lag. subst lag old_lag.
  unfold freshness_gate. run.
  destruct (Z.ltb_spec (Np.sub64 (log_step s) (currentStep s)) (MIN_SIMULATION_STEPS c))
    as [Hlag|Hlag].
  - destruct (old_checkpoint_exists w) eqn:Hex.
    + rewrite (Hold eq_refl). run.
      destruct (Z.ltb_spec (Np.sub64 (log_step s) old_step) (MIN_SIMULATION_STEPS c))
        as [Ho|Ho]; run.
      * split; [lia|]. split; [lia|]. split; [done|]. eauto.
      * split; [lia|]. split; [eauto|]. split; [done|]. lia.
    + split; [lia|]. split; [done|]. split; [done|]. done.
  - split; [done|]. repeat split; lia.
Qed.

(** ** The degenerate-trajectory stage *)

Section Unique.

Lemma insert_elem x a l : x ∈ Np.insert a l -> x = a \/ x ∈ l.
Proof.
  induction l as [|y t IH]; simpl; rewrite ?elem_of_cons.
  - intros [?|?%elem_of_nil]; tauto.
  - destruct (Np.lt a y); rewrite !elem_of_cons; [tauto|].
    intros [?|?%IH]; tauto.
Qed.

Lemma sort_elem x l : x ∈ Np.sort l -> x ∈ l.
Proof.
  induction l as [|a t IH]; simpl; first done.
  rewrite elem_of_cons. intros [->|?%IH]%insert_elem; tauto.
Qed.

Lemma insert_length a l : length (Np.insert a l) = S (length l).
Proof. induction l as [|y t IH]; simpl; [done|]. destruct (Np.lt a y); simpl; auto. Qed.

Lemma sort_length l : length (Np.sort l) = length l.
Proof. induction l as [|a t IH]; simpl; [done|]. by rewrite insert_length, IH. Qed.

Lemma unique_from_same prev l :
  (forall x y, x ∈ prev :: l -> y ∈ prev :: l -> (x =? y)%float = true) ->
  Np.unique_from prev l = [].
Proof.
  revert prev. induction l as [|x t IH]; intros prev H; simpl; first done.
  unfold Np.isnan, Py.ne.
  rewrite (H x x), (H x prev) by (rewrite !elem_of_cons; tauto). simpl.
  apply IH. intros a b Ha Hb. apply H; rewrite elem_of_cons; tauto.
Qed.

(** [len(np.unique(a)) == 1] for a non-empty array whose values all
    compare equal to each other. *)
Lemma unique_constant l :
  l <> [] ->
  (forall x y, x ∈ l -> y ∈ l -> (x =? y)%float = true) ->
  length (Np.unique l) = 1%nat.
Proof.
  intros Hne H. unfold Np.unique.
  destruct (Np.sort l) as [|x t] eqn:Hs.
  - apply (f_equal length) in Hs. rewrite sort_length in Hs. by destruct l.
  - rewrite unique_from_same; first done.
    intros a b Ha Hb. apply H; apply sort_elem; by rewrite Hs.
Qed.

End Unique.

Section Degenerate.

Variable c : Constants.
Variable w : World.

(** The energies of the state replay do not depend on the evaluator object. *)
Lemma state_replay_result cp k n s1 s2 :
  fst (state_replay w cp k n s1) = fst (state_replay w cp k n s2).
Proof.
  revert k. induction n as [|n IH]; intros k; simpl; first done.
  run. destruct (state_step_energy w cp k); simpl; last done.
  specialize (IH (S k)).
  destruct (state_replay w cp (S k) n s1) as [[|] ?],
           (state_replay w cp (S k) n s2) as [[|] ?]; simpl in *; by simplify_eq.
Qed.

End Degenerate.

(** C4, as the code has it.  When the state replay has run and passed its
    gradient check and the checkpoint replay has been constructed and run,
    a checkpoint-replay energy sequence that is not empty and whose values
    all compare equal makes [is_run_valid] return an invalid outcome from the
    degenerate-trajectory check: its warning is the last thing logged, and
    the checkpoint-gradient, state/checkpoint and anomaly stages are not
    evaluated. *)
Theorem frozen_replay_rejected
    (c : Constants) (w : World) (s : Self)
    (state_energies check_energies : list float) (step : Z) :
  let steps_to_run :=
    steps_to_run_of c (log_step s) (cpt_step s) in
  create_simulation w StateReplay = Ok tt ->
  loadState w = Ok tt ->
  fst (state_replay w (checkpoint_path s) 0 (Z.to_nat (steps_to_run / 10)) s)
    = Ok state_energies ->
  check_gradient state_energies = true ->
  create_simulation w CheckpointReplay = Ok tt ->
  loadCheckpoint w (checkpoint_path s) = Ok step ->
  checkpoint_replay w (checkpoint_path s) steps_to_run = Ok check_energies ->
  check_energies <> [] ->
  (forall x y, x ∈ check_energies -> y ∈ check_energies -> (x =? y)%float = true) ->
  exists reason s',
    is_run_valid c w s = (Ok (false, [], [], reason), s') /\
    logged s' = logged s ++
      [Info ("Recreating simulation for " ++ pdb_id w ++ " for state-based analysis...");
       InfoRunning steps_to_run (log_step s) (cpt_step s);
       Warning "All energy values in reproduced simulation are the same. Skipping!"].
Proof.
  intros steps_to_run Hc1 Hls Hse Hgrad Hc2 Hcp Hrep Hne Hall.
  subst steps_to_run.
  unfold is_run_valid. run. rewrite Hc1, Hls. run.
  match goal with |- context [state_replay w ?cp ?k ?n ?s0] =>
    pose proof (state_replay_self w cp k n s0) as Hs;
    pose proof (state_replay_result w cp k n s0 s) as Hr;
    destruct (state_replay w cp k n s0) as [r0 s1]
  end.
  simpl in Hs, Hr. rewrite Hse in Hr. subst r0 s1.
  unfold replay_stages. run. rewrite Hgrad. run.
  rewrite Hc2. run. rewrite Hcp. run. rewrite Hrep. run.
  rewrite (unique_constant check_energies Hne Hall). run.
  eexists _, _. split; first reflexivity.
  simpl. by rewrite <- !app_assoc.
Qed.

(** ** The score *)

(** Two runs of the same statement from the same state are the same run. *)
Ltac same_run :=
  repeat match goal with
         | H1 : ?x = _, H2 : ?x = _ |- _ => rewrite H1 in H2; simplify_eq
         end.

(** C1, as the code has it.  Whenever [_evaluate] returns, the score is
    exactly [0.0] if any stage rejected the submission, and otherwise it is
    the median of the last 10 samples of the replay trajectory of the valid
    outcome, which is the energy sequence read back from the verifier's own
    checkpoint replay.  Nothing makes that median non-negative. *)
Theorem evaluate_score
    (c : Constants) (w : World) (s s' : Self) (score : float) :
  _evaluate c w s = (Ok score, s') ->
  (forall checked_energies,
      accepted c w s checked_energies ->
      score = Np.median (slice_last 10 checked_energies) /\
      exists cp steps_to_run, checkpoint_replay w cp steps_to_run = Ok checked_energies) /\
  ((forall checked_energies, ~ accepted c w s checked_energies) -> score = 0%float).
Proof.
  unfold _evaluate, step_at. run.
  destruct (process_md_output c w s) as [[[|]|E] s1] eqn:Hp; run;
    [| intros [= <- <-]; split; [intros ce (?&?&?&?&?&?&?&?&_); same_run | done]
     | done].
  destruct (check_masses w s1) as [[[|]|E] s2] eqn:Hm; run;
    [| intros [= <- <-]; split; [intros ce (?&?&?&?&?&?&?&?&?&_); same_run | done]
     | done].
  destruct (map fst (log_file s2) !! 1%nat) as [step1|] eqn:H1; run; [|done].
  destruct (map fst (log_file s2) !! 0%nat) as [step0|] eqn:H0; run; [|done].
  destruct (Z.gtb_spec (Np.sub64 step1 step0) 10) as [Hgt|Hle]; run.
  { intros [= <- <-]; split; [|done].
    intros ce (?&?&?&?&?&?&?&?&?&?&?&?&_); same_run. lia. }
  destruct (is_run_valid c w s2) as [[[[[[|] ce] me] res]|E] s3] eqn:Hv; run;
    [| intros [= <- <-]; split; [|done];
       intros ? (?&?&?&?&?&?&?&?&?&?&?&?&?); same_run
     | done].
  intros [= <- <-]. split.
  - intros ce' (?&?&?&?&?&?&?&?&?&?&?&?&?). same_run. split; [done|].
    apply is_run_valid_cases in Hv as [[? ?]|(? & ? & ?)]; simplify_eq. eauto.
  - intros Hnot. destruct (Hnot ce). unfold accepted. eauto 15.
Qed.


(** ** The scenarios *)

Import Scenario.

(** Whatever string one of the five [raise "<name>"] statements of
    [is_run_valid] names, [str(E)] in the handler is the same message. *)
Lemma raise_str_reason (name : string) :
  Py.str (raise_stmt (RStr name)) = "exceptions must derive from BaseException"%string.
Proof. reflexivity. Qed.

(** When no library call of the [try] body raises, the only exception the
    body can end with is that [TypeError]. *)
Lemma stage_failure_reason (c : Constants) (w : World) (s s' : Self) (E : exn)
    (steps_to_run step : Z) (state_energies check_energies : list float) :
  create_simulation w CheckpointReplay = Ok tt ->
  loadCheckpoint w (checkpoint_path s) = Ok step ->
  checkpoint_replay w (checkpoint_path s) steps_to_run = Ok check_energies ->
  length check_energies =
    length (filter (fun row => (cpt_step s <? fst row) &&
                               (fst row <=? add_steps c (cpt_step s) steps_to_run) = true)
                   (log_file s)) ->
  save_pdb w = Ok tt ->
  replay_stages c w steps_to_run state_energies s = (Raise E, s') ->
  E = Exn TypeError "exceptions must derive from BaseException".
Proof.
  intros Hc Hl Hr Hlen Hp. unfold replay_stages, percent_diff, Np.broadcast2. run.
  rewrite Hc. run.
  destruct (check_gradient state_energies); run; [|by intros [= <- <-]].
  rewrite Hl. run. rewrite Hr. run.
  destruct (length (Np.unique check_energies) =? 1)%nat; run; [by intros [= <- <-]|].
  destruct (check_gradient check_energies); run; [|by intros [= <- <-]].
  destruct (compare_state_to_cpt c state_energies check_energies); run;
    [|by intros [= <- <-]].
  rewrite length_map, Hlen, Nat.eqb_refl, Hp. run.
  match goal with |- context [if ?b then _ else _] => destruct b end; run;
    [by intros [= <- <-]|done].
Qed.

(** An exception of the state replay's construction leaves [is_run_valid]. *)
Lemma state_replay_construction_error_propagates (c : Constants) (w : World) (s : Self) E :
  create_simulation w StateReplay = Raise E ->
  fst (is_run_valid c w s) = Raise E.
Proof. intros H. unfold is_run_valid. run. by rewrite H. Qed.

(** C2.  Each of the five replay stages fails alone in one of these five
    passes.  In all five the reason of the outcome is the message of the
    [TypeError] that [raise "<name>"] raises, so the reason is none of the
    enumerated names and does not tell the stages apart; the last thing
    logged shows which stage it was (the anomaly stage logs nothing). *)
Theorem replay_rejections_share_one_reason :
  map (fun w => let r := is_run_valid consts w (after_intake w) in
                (fst r, last (logged (snd r))))
      [exploding_state; frozen_replay; exploding_replay; desynchronised; fabricated_log]
  = map (fun m => (Ok (false, [], [], "exceptions must derive from BaseException"%string),
                   Some m))
      [Warning "hotkey 5F3sa2TJ failed state-gradient check for 1ubq, ... Skipping!";
       Warning "All energy values in reproduced simulation are the same. Skipping!";
       Warning "hotkey 5F3sa2TJ failed cpt-gradient check for 1ubq, ... Skipping!";
       Warning "hotkey 5F3sa2TJ failed state-checkpoint comparison for 1ubq, ... Skipping!";
       InfoRunning 100 1000 900].
Proof. vm_compute. reflexivity. Qed.

(** C3.  The adapter constructs the simulation of [process_md_output] and
    raises when the state replay asks for the next one (line 196, before the
    [try] of line 208): the exception leaves [_evaluate]. *)
Theorem state_replay_construction_error_escapes :
  fst (process_md_output consts no_device fresh) = Ok true /\
  fst (_evaluate consts no_device fresh)
  = Raise (Exn LibraryError "No compatible CUDA device is available").
Proof. split; vm_compute; reflexivity. Qed.

(** The same error in [process_md_output] (line 59) is caught. *)
Lemma intake_construction_error_caught (c : Constants) (w : World) (s s' : Self) E r :
  create_simulation w Intake = Raise E ->
  process_md_output c w s = (Ok r, s') -> r = false.
Proof.
  intros Hc. unfold process_md_output, recreate_simulation. run. rewrite Hc.
  repeat (case_match; run; simplify_eq/=; try done); by intros [= <- <-].
Qed.

(** The same error at the checkpoint replay (line 216) is caught. *)
Lemma checkpoint_replay_construction_error_caught (c : Constants) (w : World) (s : Self) E
    (state_energies : list float) (steps_to_run : Z) :
  check_gradient state_energies = true ->
  create_simulation w CheckpointReplay = Raise E ->
  try_except (replay_stages c w steps_to_run state_energies)
             (fun E => ret (false, [], [], Py.str E)) s
  = (Ok (false, [], [], Py.str E), s).
Proof.
  intros Hg Hc. unfold replay_stages. run. rewrite Hg. run. by rewrite Hc.
Qed.

(** The honest pass and the pass with the gap in its log are accepted. *)
Lemma honest_accepted : accepted consts honest fresh (map replayed (seq 91 10)).
Proof.
  exists (snd (process_md_output consts honest fresh)), (after_intake honest),
         (snd (is_run_valid consts honest (after_intake honest))),
         0, 10, (map energy (seq 91 10)), "valid"%string.
  do 4 (split; [vm_compute; reflexivity|]).
  split; [vm_compute; discriminate|].
  vm_compute; reflexivity.
Qed.


(** C6. The lag of line 82 is an [int64] difference and wraps around: a
    log whose last step is [-2^63], submitted with a checkpoint at step
    980 and no old checkpoint, is [2^63 + 980] steps behind its checkpoint,
    and yet the gate takes the lag for [2^63 - 980], passes it on the
    submitted checkpoint, and [process_md_output] returns [True]. *)
Theorem freshness_gate_overflow :
  let s' := snd (process_md_output consts overflowing fresh) in
  log_step s' = - 2 ^ 63 /\
  cpt_step s' = 980 /\
  old_checkpoint_exists overflowing = false /\
  log_step s' - cpt_step s' < MIN_SIMULATION_STEPS consts /\
  Np.sub64 (log_step s') (cpt_step s') = 2 ^ 63 - 980 /\
  checkpoint_path s' = Current /\
  fst (process_md_output consts overflowing fresh) = Ok true.
Proof. vm_compute. repeat split; congruence. Qed.

(** C1, as stated, fails: the honest pass is accepted and its score is
    negative. *)
Lemma accepted_score_negative :
  accepted consts honest fresh (map replayed (seq 91 10)) /\
  fst (_evaluate consts honest fresh) = Ok (-5095.75)%float /\
  (-5095.75 <? 0)%float = true.
Proof.
  split; [exact honest_accepted | split; vm_compute; reflexivity].
Qed.

(** C4, as stated, fails: the checkpoint replay of this pass would be
    constant, and the pass is rejected by the state-gradient check, before
    the checkpoint replay is run. *)
Lemma frozen_replay_not_reached :
  checkpoint_replay exploding_and_frozen Current 100 = Ok (replicate 10 (-5090.25)%float) /\
  fst (is_run_valid consts exploding_and_frozen (after_intake exploding_and_frozen))
  = Ok (false, [], [], "exceptions must derive from BaseException"%string) /\
  logged (snd (is_run_valid consts exploding_and_frozen (after_intake exploding_and_frozen)))
  = [Info "Recreating miner 5F3sa2TJ simulation in state: md_0_1";
     Info "Recreating simulation for 1ubq for state-based analysis...";
     Warning "hotkey 5F3sa2TJ failed state-gradient check for 1ubq, ... Skipping!"].
Proof. repeat split; vm_compute; reflexivity. Qed.


(** The scenario of the specification in [process_md_output]: checkpoint
    at step 980, log up to step 1000, no old checkpoint. *)
Example stale_submission_rejected :
  fst (process_md_output consts stale fresh) = Ok false /\
  logged (snd (process_md_output consts stale fresh))
  = [Info "Recreating miner 5F3sa2TJ simulation in state: md_0_1";
     Warning "Miner 5F3sa2TJ did not run enough steps and no old checkpoint found... Skipping!"].
Proof. split; vm_compute; reflexivity. Qed.

(** *** Instances *)

Lemma check_masses_single_alteration_witness :
  check_masses (with_masses honest [14; 12; 1; 16]%float [14; 12.5; 1; 16]%float) fresh
  = (Ok false, add_log (ErrorMasses 1 12 12.5) fresh).
Proof.
  apply (check_masses_single_alteration _ fresh [14; 12; 1; 16]%float 1 12 12.5);
    try reflexivity.
  intros j y Hj. do 4 (destruct j as [|j]; [by simplify_eq/=|]). by simplify_eq/=.
Defined.

Lemma check_masses_common_prefix_witness :
  check_masses (with_masses honest [14; 12; 1; 16]%float [14; 12; 1; 16; 1; 1]%float) fresh
  = (Ok true, fresh) /\
  check_masses (with_masses honest [14; 12; 1; 16]%float [14; 12]%float) fresh
  = (Ok true, fresh).
Proof.
  split.
  - apply (check_masses_common_prefix _ fresh [14; 12; 1; 16]%float
             [14; 12; 1; 16; 1; 1]%float); try reflexivity.
    intros i a b Ha Hb. do 4 (destruct i as [|i]; [by simplify_eq/=|]). by simplify_eq/=.
  - apply (check_masses_common_prefix _ fresh [14; 12; 1; 16]%float [14; 12]%float);
      try reflexivity.
    intros i a b Ha Hb. do 2 (destruct i as [|i]; [by simplify_eq/=|]). by simplify_eq/=.
Defined.

Lemma is_run_valid_rejected_trajectories_empty_witness :
  is_run_valid consts exploding_state (after_intake exploding_state)
  = (Ok (false, [], [], "exceptions must derive from BaseException"%string),
     snd (is_run_valid consts exploding_state (after_intake exploding_state))) /\
  (@nil float = [] /\ @nil float = []).
Proof.
  assert (H : is_run_valid consts exploding_state (after_intake exploding_state)
              = (Ok (false, [], [], "exceptions must derive from BaseException"%string),
                 snd (is_run_valid consts exploding_state (after_intake exploding_state))))
    by (vm_compute; reflexivity).
  split; [exact H|].
  exact (is_run_valid_rejected_trajectories_empty _ _ _ _ _ _ _ H).
Defined.

Lemma frozen_replay_rejected_witness :
  exists reason s',
    is_run_valid consts frozen_replay (after_intake frozen_replay)
    = (Ok (false, [], [], reason), s') /\
    logged s' = logged (after_intake frozen_replay) ++
      [Info "Recreating simulation for 1ubq for state-based analysis...";
       InfoRunning 100 1000 900;
       Warning "All energy values in reproduced simulation are the same. Skipping!"].
Proof.
  apply (frozen_replay_rejected consts frozen_replay (after_intake frozen_replay)
           (map replayed (seq 91 10)) (replicate 10 (-5090.25)%float) 900);
    try (vm_compute; reflexivity).
  - discriminate.
  - intros x y Hx%elem_of_replicate Hy%elem_of_replicate.
    destruct Hx as [-> _], Hy as [-> _]. reflexivity.
Defined.

(** The score of the honest pass is the median of the last 10 energies of
    the verifier's replay, [-5095.75]; the median of the last 10 energies the
    worker logged is [-5095.5]. *)
Lemma evaluate_score_witness :
  fst (_evaluate consts honest fresh) = Ok (-5095.75)%float /\
  (-5095.75)%float = Np.median (slice_last 10 (map replayed (seq 91 10))) /\
  Np.median (slice_last 10 (map snd full_log)) = (-5095.5)%float.
Proof.
  assert (H : _evaluate consts honest fresh
              = (Ok (-5095.75)%float, snd (_evaluate consts honest fresh)))
    by (vm_compute; reflexivity).
  split; [by rewrite H|]. split; [|vm_compute; reflexivity].
  exact (proj1 (proj1 (evaluate_score _ _ _ _ _ H) _ honest_accepted)).
Defined.


(** ** Engine construction *)

Section CreateSimulation.

Import Simulation.

(** Unfolds the statements of [create_simulation] down to the dictionary. *)
Ltac run_sim :=
  repeat (progress (cbv beta iota delta
            [Simulation.bind Simulation.ret Simulation.call Simulation.getitem
             Simulation.setitem Simulation.throw]; cbn beta iota)).

(** Line 164 reads a name that is bound nowhere. *)
Lemma logging_is_unbound :
  load_global "logging" = throw (Exn NameError "name 'logging' is not defined").
Proof. reflexivity. Qed.

(** The dictionary [create_simulation] leaves is the one it was given or
    that one with the cutoff replaced, and the call does not return:
    without an idle GPU line 160 reads the unbound local [static_id], and
    with one line 164 reads [logging]. *)
Lemma create_simulation_run env seed verbose cfg :
  (exists E, fst (create_simulation env seed verbose cfg) = Raise E) /\
  (snd (create_simulation env seed verbose cfg) = cfg \/
   exists box cutoff,
     min_box_dimension env = Ok box /\
     cfg !! "cutoff" = Some cutoff /\
     gt_float cutoff (box / 2)%float = Ok true /\
     snd (create_simulation env seed verbose cfg)
     = <["cutoff" := VFloat (box / 2)%float]> cfg).
Proof.
  unfold create_simulation. rewrite logging_is_unbound.
  unfold load_local. run_sim.
  repeat (case_match; simplify_eq/=; eauto 10).
Qed.

End CreateSimulation.

(** Up to the line where it stops, [create_simulation] changes the
    dictionary it is given at most at the key ["cutoff"], and only by
    storing half the minimum box dimension there when the configured cutoff
    exceeds it. *)
Lemma create_simulation_frame
    (env : Simulation.Engine) (seed : option Z) (verbose : bool)
    (cfg : gmap string Simulation.pyval) :
  (forall k, k <> "cutoff"%string ->
             snd (Simulation.create_simulation env seed verbose cfg) !! k = cfg !! k) /\
  (snd (Simulation.create_simulation env seed verbose cfg) = cfg \/
   exists box cutoff,
     Simulation.min_box_dimension env = Ok box /\
     cfg !! "cutoff"%string = Some cutoff /\
     Simulation.gt_float cutoff (box / 2)%float = Ok true /\
     snd (Simulation.create_simulation env seed verbose cfg)
     = <["cutoff"%string := Simulation.VFloat (box / 2)%float]> cfg).
Proof.
  destruct (create_simulation_run env seed verbose cfg) as [_ H].
  split; [|exact H].
  intros k Hk. destruct H as [->|(box & cutoff & _ & _ & _ & ->)]; [done|].
  by rewrite lookup_insert_ne.
Qed.

(** With an idle GPU the call stops at line 164, without one at line 160;
    the cutoff has been written back by then. *)
Example create_simulation_with_idle_gpu :
  fst (Simulation.create_simulation (engine [0]) (Some 7) false config)
  = Raise (Exn NameError "name 'logging' is not defined") /\
  config !! "cutoff"%string = Some (Simulation.VFloat 1.5) /\
  snd (Simulation.create_simulation (engine [0]) (Some 7) false config) !! "cutoff"%string
  = Some (Simulation.VFloat 1) /\
  snd (Simulation.create_simulation (engine [0]) (Some 7) false config) !! "constraints"%string
  = Some (Simulation.VObject "HBonds").
Proof. repeat split; vm_compute; reflexivity. Qed.

Example create_simulation_without_idle_gpu :
  fst (Simulation.create_simulation (engine []) (Some 7) false config)
  = Raise (Exn UnboundLocalError
      "cannot access local variable 'static_id' where it is not associated with a value") /\
  snd (Simulation.create_simulation (engine []) (Some 7) false config) !! "cutoff"%string
  = Some (Simulation.VFloat 1).
Proof. repeat split; vm_compute; reflexivity. Qed.

(** The loop of lines 187-189, which no call reaches, would rewrite the
    values that are neither [str], [int], [float] nor [dict]. *)
Example stringify_values_rewrites :
  config !! "constraints"%string = Some (Simulation.VObject "HBonds") /\
  config !! "seed"%string = Some Simulation.VNone /\
  snd (Simulation.stringify_values config) !! "constraints"%string
  = Some (Simulation.VStr "HBonds") /\
  snd (Simulation.stringify_values config) !! "seed"%string
  = Some (Simulation.VStr "None").
Proof. repeat split; vm_compute; reflexivity. Qed.


(* ================================================================== *)
(** * Further properties of the evaluator                              *)
(* ================================================================== *)

(** ** File names and extensions *)

Lemma has_dot_app (s e : string) : has_dot (s +:+ "." +:+ e) = true.
Proof.
  induction s as [|ch s IH]; simpl; first done.
  by destruct (Ascii.eqb ch dot).
Qed.

Lemma split_dot_last_no_dot (s : string) : has_dot s = false -> split_dot_last s = s.
Proof.
  destruct s as [|ch s]; simpl; first done.
  destruct (Ascii.eqb ch dot); first done.
  by intros ->.
Qed.

Lemma split_dot_last_extension (stem ext : string) :
  has_dot ext = false -> split_dot_last (stem +:+ "." +:+ ext) = ext.
Proof.
  intros Hext. induction stem as [|ch stem IH]; simpl.
  - change ("" +:+ ext) with ext. by rewrite Hext.
  - by rewrite has_dot_app.
Qed.

(** An extension is in [md_outputs_exts] exactly when some submitted file
    with content has it as the last dot-component of its name. *)
Lemma has_ext_iff (w : World) (ext : string) :
  has_ext w ext = true <->
  exists name content,
    (name, content) ∈ md_output w /\ content <> ""%string /\ split_dot_last name = ext.
Proof.
  unfold has_ext, ext_in, extension_map. rewrite existsb_exists. split.
  - intros (e & He & Heq). apply String.eqb_eq in Heq.
    apply list_elem_of_In, list_elem_of_fmap in He as ([name content] & -> & Hin).
    apply list_elem_of_filter in Hin as [Hlen Hin]. simpl in *.
    exists name, content. split; [done|]. split; [|done].
    intros ->. done.
  - intros (name & content & Hin & Hne & Hext).
    exists (split_dot_last name, name). split.
    + apply list_elem_of_In, list_elem_of_fmap. exists (name, content). split; [done|].
      apply list_elem_of_filter. split; [|done]. simpl.
      destruct content; [done|reflexivity].
    + simpl. by apply String.eqb_eq.
Qed.

(** X1. The extension under which [md_outputs_exts] files a submitted
    file is what follows the last dot of its name, and the whole name when
    it has no dot: a file with content called [<stem>.<ext>], or called just
    [<ext>], provides the extension [<ext>]. *)
Theorem file_provides_extension (w : World) (stem ext content : string) :
  has_dot ext = false ->
  content <> ""%string ->
  (stem +:+ "." +:+ ext, content) ∈ md_output w \/ (ext, content) ∈ md_output w ->
  has_ext w ext = true.
Proof.
  intros Hext Hcontent [Hin|Hin]; apply has_ext_iff.
  - exists (stem +:+ "." +:+ ext), content. by rewrite split_dot_last_extension.
  - exists ext, content. by rewrite split_dot_last_no_dot.
Qed.

(** ** process_md_output *)

(** X2. When no submitted file with content has the extension [cpt], or
    none has the extension [log], [process_md_output] returns [False] after
    logging one message; it has then made no library call (nothing is saved,
    no simulation is built) and assigned only the five attributes of
    lines 27-34. *)
Theorem process_md_output_missing_files (c : Constants) (w : World) (s : Self) (ext : string) :
  ext = "cpt"%string \/ ext = "log"%string ->
  (forall name content, (name, content) ∈ md_output w -> content <> ""%string ->
                        split_dot_last name <> ext) ->
  exists m,
    process_md_output c w s
    = (Ok false,
       add_log m
         (set_md_outputs_exts (extension_map w)
            (set_miner_seed (seed w)
               (set_current_state (state w)
                  (set_hotkey_alias (str_prefix 8 (hotkey w))
                     (set_pdb_location (data_pdb_location w) s)))))).
Proof.
  intros Hext Hmissing.
  assert (Hno : has_ext w ext = false).
  { apply not_true_is_false. intros (name & content & Hin & Hne & Heq)%has_ext_iff.
    by eapply Hmissing. }
  unfold process_md_output. run.
  destruct (length (md_output w) =? 0)%nat; run; [eauto|].
  cbn [List.find]. fold (has_ext w "cpt") (has_ext w "log").
  destruct (has_ext w "cpt") eqn:Hcpt; cbn [negb]; run; [|eauto].
  destruct (has_ext w "log") eqn:Hlog; cbn [negb]; run; [|eauto].
  destruct Hext as [->| ->]; congruence.
Qed.

(** How [process_md_output] can end. *)
Lemma process_md_output_cases (c : Constants) (w : World) (s s' : Self) r :
  process_md_output c w s = (r, s') ->
  r = Ok false \/
  (exists E, r = Raise E /\ save_files w = Raise E) \/
  (r = Ok true /\
   read_csv_log w = Ok (log_file s') /\
   MIN_LOGGING_ENTRIES c <= Z.of_nat (length (log_file s')) /\
   last (map fst (log_file s')) = Some (log_step s') /\
   loadCheckpoint w (checkpoint_path s') = Ok (cpt_step s') /\
   MIN_SIMULATION_STEPS c <= Np.sub64 (log_step s') (cpt_step s') /\
   hotkey_alias s' = str_prefix 8 (hotkey w)).
Proof.
  unfold process_md_output. run.
  destruct (length (md_output w) =? 0)%nat; run; [intros [= <- <-]; auto|].
  destruct (List.find _ _); run; [intros [= <- <-]; auto|].
  destruct (save_files w) as [[]|E']; run; [|intros [= <- <-]; eauto].
  destruct (recreate_simulation c w _) as [[[]|E'] s1] eqn:Hbody; run;
    [|destruct (exn_cls E'); run; intros [= <- <-]; auto].
  intros [= <- <-]. right. right. split; [done|]. revert Hbody.
  unfold recreate_simulation, freshness_gate. run.
  destruct (create_simulation w Intake) as [[]|]; run; [|done].
  destruct (loadCheckpoint w Current) as [step|] eqn:Hcur; run; [|done].
  destruct (read_csv_log w) as [rows|]; run; [|done].
  destruct (last (map fst rows)) as [last_step|] eqn:Hlast; run; [|done].
  destruct (Z.ltb_spec (Z.of_nat (length rows)) (MIN_LOGGING_ENTRIES c)); run; [done|].
  destruct (Z.ltb_spec (Np.sub64 last_step step) (MIN_SIMULATION_STEPS c)); run.
  - destruct (old_checkpoint_exists w); run; [|done].
    destruct (loadCheckpoint w Old) as [old_step|] eqn:Hold; run; [|done].
    destruct (Z.ltb_spec (Np.sub64 last_step old_step) (MIN_SIMULATION_STEPS c)); run; [done|].
    destruct (saveState w) as [[]|]; run; [|done].
    destruct (write_pkl w) as [[]|]; run; [|done].
    intros [= <-]. run. repeat split; try done; lia.
  - destruct (saveState w) as [[]|]; run; [|done].
    destruct (write_pkl w) as [[]|]; run; [|done].
    intros [= <-]. run. repeat split; try done; lia.
Qed.

(** X3. Every exception raised after the files are saved is caught:
    [process_md_output] raises only what [save_files] raises. *)
Theorem process_md_output_raises_only_from_save_files
    (c : Constants) (w : World) (s : Self) (E : exn) :
  fst (process_md_output c w s) = Raise E -> save_files w = Raise E.
Proof.
  destruct (process_md_output c w s) as [r s'] eqn:H. simpl. intros ->.
  apply process_md_output_cases in H as [?|[(E' & ? & ?)|[? _]]]; by simplify_eq.
Qed.

(** X4. What holds of the evaluator object when [process_md_output] has
    returned [True]: the log it keeps is the parsed submitted log, with at
    least [MIN_LOGGING_ENTRIES] rows, [log_step] is the step of its last row,
    [cpt_step] is the step of the checkpoint it keeps the path of, and the
    [int64] difference [log_step - cpt_step] is at least
    [MIN_SIMULATION_STEPS]. *)
Theorem process_md_output_true_invariant (c : Constants) (w : World) (s s' : Self) :
  process_md_output c w s = (Ok true, s') ->
  read_csv_log w = Ok (log_file s') /\
  MIN_LOGGING_ENTRIES c <= Z.of_nat (length (log_file s')) /\
  last (map fst (log_file s')) = Some (log_step s') /\
  loadCheckpoint w (checkpoint_path s') = Ok (cpt_step s') /\
  MIN_SIMULATION_STEPS c <= Np.sub64 (log_step s') (cpt_step s') /\
  hotkey_alias s' = str_prefix 8 (hotkey w).
Proof.
  intros H.
  apply process_md_output_cases in H as [?|[(E' & ? & ?)|[_ H]]]; by simplify_eq.
Qed.

(** ** The gradient and consistency checks *)

(** The state replay returns one energy per round. *)
Lemma state_replay_length (w : World) cp k n s l s' :
  state_replay w cp k n s = (Ok l, s') -> length l = n.
Proof.
  revert k l. induction n as [|n IH]; intros k l; simpl.
  - by intros [= <- <-].
  - run. destruct (state_step_energy w cp k); run; [|done].
    destruct (state_replay w cp (S k) n s) as [[rest|] s1] eqn:Hrest; run; [|done].
    intros [= <- <-]. simpl. f_equal. by eapply IH.
Qed.

(** The state replay completes when every round does. *)
Lemma state_replay_completes (w : World) cp k n s :
  (forall i, exists energy, state_step_energy w cp i = Ok energy) ->
  exists l, state_replay w cp k n s = (Ok l, s).
Proof.
  intros Hok. revert k. induction n as [|n IH]; intros k; simpl; [by eexists|].
  run. destruct (Hok k) as [energy ->]. run.
  destruct (IH (S k)) as [rest ->]. run. by eexists.
Qed.

Lemma check_gradient_short (l : list float) :
  (length l <= 1)%nat -> check_gradient l = false.
Proof.
  destruct l as [|x [|y l]]; simpl; [reflexivity | reflexivity | lia].
Qed.

(** X5. The mean of the consecutive differences of fewer than two samples
    is NaN, which is not [<= 10]: when fewer than 20 steps are to be
    replayed, the state replay has at most one sample and every outcome
    [is_run_valid] returns is the rejection of the first [raise]. *)
Theorem short_replay_rejected (c : Constants) (w : World) (s s' : Self) (r : outcome) :
  steps_to_run_of c (log_step s) (cpt_step s) < 20 ->
  is_run_valid c w s = (Ok r, s') ->
  r = (false, [], [], "exceptions must derive from BaseException"%string).
Proof.
  intros Hshort. unfold is_run_valid. run.
  destruct (create_simulation w StateReplay); run; [|done].
  destruct (loadState w); run; [|done].
  match goal with |- context [state_replay w ?cp ?k ?n ?s0] =>
    destruct (state_replay w cp k n s0) as [[state_energies|] s1] eqn:Hs
  end; run; [|done].
  apply state_replay_length in Hs.
  unfold replay_stages. run.
  rewrite check_gradient_short; run; [by intros [= <- <-]|].
  rewrite Hs.
  assert (steps_to_run_of c (log_step s) (cpt_step s) / 10 < 2)
    by (apply Z.div_lt_upper_bound; lia).
  lia.
Qed.

(** X6. The gradient check and the state/checkpoint comparison read the
    first 50 samples only: what the trajectories do after them changes
    neither result. *)
Theorem checks_read_first_50_samples
    (c : Constants) (state_energies check_energies later later' : list float) :
  (50 <= length state_energies)%nat ->
  (50 <= length check_energies)%nat ->
  check_gradient (check_energies ++ later) = check_gradient check_energies /\
  compare_state_to_cpt c (state_energies ++ later') (check_energies ++ later)
  = compare_state_to_cpt c state_energies check_energies.
Proof.
  intros Hs Hc. unfold check_gradient, compare_state_to_cpt, slice_to.
  by rewrite !take_app_le.
Qed.

(** X7. When the stages before the anomaly check pass and the number of
    log rows in the replayed window is neither the number of replay
    samples nor 1 (and there is more than one replay sample), the
    subtraction of line 260 cannot broadcast: [is_run_valid] returns an
    invalid outcome, whatever the energies in the log are. *)
Theorem mismatched_log_rejected
    (c : Constants) (w : World) (s : Self)
    (state_energies check_energies : list float) (step : Z) :
  let steps_to_run :=
    steps_to_run_of c (log_step s) (cpt_step s) in
  let rows_in_window :=
    filter (fun row => (cpt_step s <? fst row) && (fst row <=? add_steps c (cpt_step s) steps_to_run) = true)
           (log_file s) in
  create_simulation w StateReplay = Ok tt ->
  loadState w = Ok tt ->
  fst (state_replay w (checkpoint_path s) 0 (Z.to_nat (steps_to_run / 10)) s)
    = Ok state_energies ->
  create_simulation w CheckpointReplay = Ok tt ->
  loadCheckpoint w (checkpoint_path s) = Ok step ->
  checkpoint_replay w (checkpoint_path s) steps_to_run = Ok check_energies ->
  length rows_in_window <> length check_energies ->
  length rows_in_window <> 1%nat ->
  length check_energies <> 1%nat ->
  exists reason s', is_run_valid c w s = (Ok (false, [], [], reason), s').
Proof.
  intros steps_to_run rows_in_window Hc1 Hls Hse Hc2 Hcp Hrep Hlen Hrow1 Hce1.
  subst steps_to_run rows_in_window.
  unfold is_run_valid. run. rewrite Hc1, Hls. run.
  match goal with |- context [state_replay w ?cp ?k ?n ?s0] =>
    pose proof (state_replay_self w cp k n s0) as Hs;
    pose proof (state_replay_result w cp k n s0 s) as Hr;
    destruct (state_replay w cp k n s0) as [r0 s1]
  end.
  simpl in Hs, Hr. rewrite Hse in Hr. subst r0 s1.
  unfold replay_stages. run.
  destruct (check_gradient state_energies); run; [|eauto].
  rewrite Hc2. run. rewrite Hcp. run. rewrite Hrep. run.
  destruct (length (Np.unique check_energies) =? 1)%nat; run; [eauto|].
  destruct (check_gradient check_energies); run; [|eauto].
  destruct (compare_state_to_cpt c state_energies check_energies); run; [|eauto].
  unfold percent_diff, Np.broadcast2. rewrite length_map.
  destruct (Nat.eqb_spec (length check_energies)
    (length (filter (fun row => (cpt_step s <? fst row) &&
                                (fst row <=? add_steps c (cpt_step s)
                        (steps_to_run_of c (log_step s) (cpt_step s))) = true)
                    (log_file s)))) as [Heq|_]; [by rewrite Heq in Hlen|].
  destruct check_energies as [|x [|y ce]]; [|done|].
  - destruct (filter _ _) as [|r1 [|r2 rows]]; [done|done|]. run. eauto.
  - destruct (filter _ _) as [|r1 [|r2 rows]]; [|done|]; run; eauto.
Qed.

(** ** _evaluate *)

(** X9. [OpenMMSimulation.create_simulation] as it is written never
    returns, and [process_md_output] catches what it raises: when the
    adapter's first call is that function, every score [_evaluate] returns
    is [0.0]. *)
Theorem evaluate_through_openmm_scores_zero
    (c : Constants) (w : World) (s s' : Self) (score : float)
    (env : Simulation.Engine) (seed : option Z) (verbose : bool)
    (system_config : gmap string Simulation.pyval) :
  create_simulation w Intake
  = fst (Simulation.create_simulation env seed verbose system_config) ->
  _evaluate c w s = (Ok score, s') ->
  score = 0%float.
Proof.
  intros Hadapter.
  destruct (create_simulation_run env seed verbose system_config) as [[E HE] _].
  rewrite HE in Hadapter.
  unfold _evaluate. run.
  destruct (process_md_output c w s) as [[b|E'] s1] eqn:Hp; run; [|done].
  rewrite (intake_construction_error_caught c w s s1 E b Hadapter Hp).
  run. by intros [= <- <-].
Qed.

(* ================================================================== *)
(** * Further properties of engine construction                        *)
(* ================================================================== *)

(** Unfolds the statements of [create_simulation] down to the dictionary. *)
Ltac run_dict :=
  repeat (progress (cbv beta iota delta
            [Simulation.bind Simulation.ret Simulation.call Simulation.getitem
             Simulation.setitem Simulation.throw]; cbn beta iota)).

Section CreateSimulationMore.

Import Simulation.

(** The calls after line 164 do not matter to [create_simulation]. *)
Lemma create_simulation_stops_at_logging env seed verbose cfg built positioned validated verbose' :
  create_simulation (MoreScenarios.with_construction env built positioned validated)
                    seed verbose' cfg
  = create_simulation env seed verbose cfg.
Proof.
  unfold create_simulation. rewrite !logging_is_unbound.
  unfold load_local. run_dict. cbn [MoreScenarios.with_construction
    ForceField Modeller addSolvent min_box_dimension createSystem LangevinIntegrator
    setRandomNumberSeed getPlatformByName get_idle_gpus].
  repeat (case_match; simplify_eq/=; try done).
Qed.

End CreateSimulationMore.

(** X10. [create_simulation] never returns a simulation: every call ends
    in an exception, and the result is the same whatever constructing the
    [Simulation], setting its positions, building the [SimulationConfig] and
    [verbose] would do, because line 164 is never passed. *)
Theorem create_simulation_never_returns
    (env : Simulation.Engine) (seed : option Z) (verbose verbose' : bool)
    (system_config : gmap string Simulation.pyval)
    (built : Z -> result unit) (positioned : result unit)
    (validated : gmap string Simulation.pyval -> result unit) :
  (exists E, fst (Simulation.create_simulation env seed verbose system_config) = Raise E) /\
  Simulation.create_simulation
    (MoreScenarios.with_construction env built positioned validated) seed verbose' system_config
  = Simulation.create_simulation env seed verbose system_config.
Proof.
  split.
  - exact (proj1 (create_simulation_run env seed verbose system_config)).
  - apply create_simulation_stops_at_logging.
Qed.

(** X11. When the dictionary has the keys read before the cutoff and the
    engine calls before it succeed, the cutoff of the caller's dictionary
    after the call is half the minimum box dimension if the configured one
    exceeded it, and is untouched if it did not; a cutoff that cannot be
    compared with a float raises and leaves the dictionary as it was. *)
Theorem cutoff_written_back
    (env : Simulation.Engine) (seed : option Z) (verbose : bool)
    (system_config : gmap string Simulation.pyval)
    (ff water box_padding box cutoff : Simulation.pyval) (min_dimension : float) :
  system_config !! "ff"%string = Some ff ->
  system_config !! "water"%string = Some water ->
  Simulation.ForceField env ff water = Ok tt ->
  Simulation.Modeller env = Ok tt ->
  system_config !! "box_padding"%string = Some box_padding ->
  system_config !! "box"%string = Some box ->
  Simulation.addSolvent env box_padding box = Ok tt ->
  Simulation.min_box_dimension env = Ok min_dimension ->
  system_config !! "cutoff"%string = Some cutoff ->
  match Simulation.gt_float cutoff (min_dimension / 2)%float with
  | Ok true =>
      snd (Simulation.create_simulation env seed verbose system_config)
      = <["cutoff"%string := Simulation.VFloat (min_dimension / 2)%float]> system_config
  | Ok false =>
      snd (Simulation.create_simulation env seed verbose system_config) = system_config
  | Raise E =>
      Simulation.create_simulation env seed verbose system_config = (Raise E, system_config)
  end.
Proof.
  intros Hff Hwater HFF HM Hpad Hbox Hsolv Hmin Hcut.
  unfold Simulation.create_simulation. rewrite logging_is_unbound.
  unfold Simulation.load_local. run_dict.
  rewrite Hff, Hwater, HFF, HM, Hpad, Hbox, Hsolv, Hmin, Hcut. run_dict.
  destruct (Simulation.gt_float cutoff (min_dimension / 2)%float) as [[|]|E];
    run_dict; [| |done].
  - repeat (case_match; simplify_eq/=; try done).
  - rewrite Hcut. repeat (case_match; simplify_eq/=; try done).
Qed.


(* ================================================================== *)
(** * Device selection                                                 *)
(* ================================================================== *)

(** What the loop of [get_idle_gpus] leaves: nothing when no device from
    [i] on is idle, else the first idle device first. *)
Lemma idle_from_head (t : Gpu.Torch) (threshold : float) (i n : nat) :
  match Gpu.idle_from t threshold i n with
  | [] => forall j, (i <= j < i + n)%nat ->
                    (Gpu.memory_fraction t j <? threshold)%float = false
  | z :: _ => exists j, z = Z.of_nat j /\ (i <= j < i + n)%nat /\
                        (Gpu.memory_fraction t j <? threshold)%float = true /\
                        forall k, (i <= k < j)%nat ->
                                  (Gpu.memory_fraction t k <? threshold)%float = false
  end.
Proof.
  revert i. induction n as [|n IH]; intros i; simpl; [lia|].
  destruct (Gpu.memory_fraction t i <? threshold)%float eqn:Hi.
  - exists i. repeat split; [lia | lia | done | lia].
  - specialize (IH (S i)). destruct (Gpu.idle_from t threshold (S i) n) as [|z l].
    + intros j Hj. destruct (decide (j = i)) as [->|]; [done|]. apply IH. lia.
    + destruct IH as (j & -> & Hj & Hidle & Hbefore).
      exists j. repeat split; [lia | lia | done |].
      intros k Hk. destruct (decide (k = i)) as [->|]; [done|]. apply Hbefore. lia.
Qed.

(** X12. [first_number(get_idle_gpus(threshold))] is [-1] exactly when no
    device uses less than [threshold] of its memory, and otherwise the index
    of the first device that does. *)
Theorem first_idle_gpu (t : Gpu.Torch) (threshold : float) :
  let idle j := (Gpu.memory_fraction t j <? threshold)%float in
  (Simulation.first_number (Gpu.get_idle_gpus t threshold) = -1 <->
   forall j, (j < Gpu.device_count t)%nat -> idle j = false) /\
  (forall j, Simulation.first_number (Gpu.get_idle_gpus t threshold) = Z.of_nat j <->
             (j < Gpu.device_count t)%nat /\ idle j = true /\
             forall k, (k < j)%nat -> idle k = false).
Proof.
  intros idle. subst idle. unfold Gpu.get_idle_gpus.
  pose proof (idle_from_head t threshold 0 (Gpu.device_count t)) as H.
  destruct (Gpu.idle_from t threshold 0 (Gpu.device_count t)) as [|z l]; simpl.
  - split.
    + split; [intros _ j Hj; apply H; lia | done].
    + intros j. split; [lia|]. intros (Hj & Hidle & _). rewrite H in Hidle by lia. done.
  - destruct H as (j & -> & Hj & Hidle & Hbefore). split.
    + split; [lia|]. intros Hnone. rewrite Hnone in Hidle by lia. done.
    + intros j'. split.
      * intros ->%Nat2Z.inj. repeat split; [lia | done |]. intros k Hk. apply Hbefore. lia.
      * intros (Hj' & Hidle' & Hbefore'). f_equal.
        destruct (Nat.lt_trichotomy j j') as [Hlt|[->|Hgt]]; [|done|].
        -- rewrite Hbefore' in Hidle by done. done.
        -- rewrite Hbefore in Hidle' by lia. done.
Qed.

(* ================================================================== *)
(** * The task registry                                                *)
(* ================================================================== *)

Lemma append_names_all (abstract : Registry.evaluator -> bool) pipelines tasks :
  (forall pipe, pipe ∈ pipelines -> Registry.instantiate abstract pipe = Ok pipe) ->
  Registry.append_names abstract pipelines tasks = Ok (tasks ++ map Registry.name pipelines).
Proof.
  revert tasks. induction pipelines as [|pipe rest IH]; intros tasks Hall; simpl.
  - by rewrite app_nil_r.
  - rewrite Hall by (rewrite elem_of_cons; auto).
    rewrite IH by (intros p Hp; apply Hall; rewrite elem_of_cons; auto).
    by rewrite <- app_assoc.
Qed.

Lemma append_names_first_failure (abstract : Registry.evaluator -> bool)
    before pipe rest tasks E :
  (forall p, p ∈ before -> Registry.instantiate abstract p = Ok p) ->
  Registry.instantiate abstract pipe = Raise E ->
  Registry.append_names abstract (before ++ pipe :: rest) tasks = Raise E.
Proof.
  revert tasks. induction before as [|p before IH]; intros tasks Hall HE; simpl.
  - by rewrite HE.
  - rewrite Hall by (rewrite elem_of_cons; auto).
    apply IH; [|done]. intros q Hq. apply Hall. rewrite elem_of_cons; auto.
Qed.

(** X13. [EvaluationRegistry()] cannot be constructed: its loop calls each
    evaluator class without arguments, and the first of them,
    [SyntheticMDEvaluator], requires [pdb_id], so the constructor ends in a
    [TypeError] whatever [BaseEvaluator] declares; no task name is
    collected. *)
Theorem EvaluationRegistry_init_raises (abstract : Registry.evaluator -> bool) :
  exists message, Registry.EvaluationRegistry_init abstract = Raise (Exn TypeError message).
Proof.
  unfold Registry.EvaluationRegistry_init.
  assert (exists message, Registry.instantiate abstract Registry.SyntheticMDEvaluator
                          = Raise (Exn TypeError message)) as [message Hfirst].
  { unfold Registry.instantiate. destruct (abstract _); simpl; eauto. }
  exists message.
  apply (append_names_first_failure abstract [] Registry.SyntheticMDEvaluator); [|done].
  intros p Hp. by apply elem_of_nil in Hp.
Qed.

(* ================================================================== *)
(** * Validator cooldown                                               *)
(* ================================================================== *)

Section Cooldown.

Import Validators.

Lemma after_responses_snoc responses r v :
  after_responses (responses ++ [r]) v
  = update_failure (fst r) (snd r) (after_responses responses v).
Proof. unfold after_responses. by rewrite fold_left_app. Qed.

Lemma after_responses_identity responses v :
  uid (after_responses responses v) = uid v /\
  stake (after_responses responses v) = stake v /\
  address (after_responses responses v) = address v /\
  hotkey (after_responses responses v) = hotkey v.
Proof.
  induction responses as [|r responses IH] using rev_ind; [done|].
  rewrite after_responses_snoc. unfold update_failure.
  destruct (snd r =? 200); simpl; done.
Qed.

Lemma after_failures responses v :
  timeout v <= 86400 ->
  (forall r, r ∈ responses -> snd r <> 200) ->
  timeout (after_responses responses v)
  = Z.min (timeout v * 4 ^ Z.of_nat (length responses)) 86400.
Proof.
  intros Hcap. induction responses as [|r responses IH] using rev_ind; intros Hfail.
  - simpl. lia.
  - rewrite after_responses_snoc, length_app, Nat2Z.inj_add, Z.pow_add_r by lia.
    unfold update_failure.
    destruct (Z.eqb_spec (snd r) 200) as [Heq|_].
    { exfalso. apply (Hfail r); [|done]. rewrite elem_of_app, list_elem_of_singleton. auto. }
    simpl. rewrite IH by (intros r' Hr'; apply Hfail; rewrite elem_of_app; auto).
    change (4 ^ Z.of_nat 1) with 4.
    set (p := 4 ^ Z.of_nat (length responses)). lia.
Qed.

End Cooldown.

(** X14. Each response other than 200 multiplies the cooldown by 4 up to
    the cap: after [n] such responses in a row the timeout is
    [min(timeout * 4^n, 86400)], so a fresh validator (timeout 1) is at the
    cap of one day from its ninth failure on; who the validator is does not
    change. *)
Theorem timeout_after_failures
    (responses : list (float * Z)) (v : Validators.Validator) :
  Validators.timeout v <= 86400 ->
  (forall r, r ∈ responses -> snd r <> 200) ->
  Validators.timeout (Validators.after_responses responses v)
  = Z.min (Validators.timeout v * 4 ^ Z.of_nat (length responses)) 86400 /\
  (Validators.timeout v = 1 -> (9 <= length responses)%nat ->
   Validators.timeout (Validators.after_responses responses v) = 86400) /\
  Validators.uid (Validators.after_responses responses v) = Validators.uid v.
Proof.
  intros Hcap Hfail. split; [by apply after_failures|]. split.
  - intros H1 Hn. rewrite after_failures, H1 by done.
    assert (4 ^ 9 <= 4 ^ Z.of_nat (length responses)) by (apply Z.pow_le_mono_r; lia).
    change (4 ^ 9) with 262144 in *. lia.
  - apply after_responses_identity.
Qed.

(** X15. Whatever the responses are, the timeout stays between 1 second
    and one day once it is there, and a response 200 puts it back to 1 and
    makes the validator available from the time of that response. *)
Theorem timeout_stays_in_range
    (responses : list (float * Z)) (v : Validators.Validator) :
  1 <= Validators.timeout v <= 86400 ->
  1 <= Validators.timeout (Validators.after_responses responses v) <= 86400 /\
  (forall time, Validators.timeout
                  (Validators.after_responses (responses ++ [(time, 200)]) v) = 1 /\
                Validators.available_at
                  (Validators.after_responses (responses ++ [(time, 200)]) v) = time).
Proof.
  intros Hrange. split.
  - induction responses as [|r responses IH] using rev_ind; [done|].
    rewrite after_responses_snoc. unfold Validators.update_failure.
    destruct (snd r =? 200); simpl; lia.
  - intros time. by rewrite after_responses_snoc.
Qed.

(** X16. [update_validators] changes at most the entry of [uid]: it does
    nothing for a [uid] that is not registered, it never adds or removes a
    validator, and the entry of a registered [uid] becomes what
    [update_failure] makes of it. *)
Theorem update_validators_frame
    (current_time : float) (uid response_code : Z)
    (validators : gmap Z Validators.Validator) :
  dom (Validators.update_validators current_time uid response_code validators)
  = dom validators /\
  (forall other, other <> uid ->
     Validators.update_validators current_time uid response_code validators !! other
     = validators !! other) /\
  Validators.update_validators current_time uid response_code validators !! uid
  = Validators.update_failure current_time response_code <$> validators !! uid.
Proof.
  unfold Validators.update_validators.
  destruct (validators !! uid) as [v|] eqn:Hv; simpl.
  - split; [|split].
    + rewrite dom_insert_L. apply subseteq_union_1_L, singleton_subseteq_l.
      by eapply elem_of_dom_2.
    + intros other Hne. by rewrite lookup_insert_ne.
    + by rewrite lookup_insert_eq.
  - by rewrite Hv.
Qed.

(* ================================================================== *)
(** * The log                                                          *)
(* ================================================================== *)

(** X17. A log with fewer than [MIN_LOGGING_ENTRIES] rows is rejected
    before the freshness gate looks at the checkpoint: [process_md_output]
    returns [False], with the warning of line 77 when the log has a row and,
    when it has none, with the error that reports the [IndexError] of
    [iloc[-1]]. *)
Theorem insufficient_logging_rejected
    (c : Constants) (w : World) (s : Self) (step : Z) (rows : list (Z * float)) :
  md_output w <> [] ->
  has_ext w "cpt" = true ->
  has_ext w "log" = true ->
  save_files w = Ok tt ->
  create_simulation w Intake = Ok tt ->
  loadCheckpoint w Current = Ok step ->
  read_csv_log w = Ok rows ->
  Z.of_nat (length rows) < MIN_LOGGING_ENTRIES c ->
  exists s',
    process_md_output c w s = (Ok false, s') /\
    cpt_step s' = cpt_step s /\
    last (logged s') = Some
      (if decide (rows = []) then
         Error "Failed to recreate simulation: single positional indexer is out-of-bounds"
       else
         Warning ("Miner " ++ str_prefix 8 (hotkey w) ++
                  " did not run enough steps in the simulation... Skipping!")).
Proof.
  intros Hfiles Hcpt Hlog Hsave Hc Hl Hr Hshort.
  unfold process_md_output, recreate_simulation. run.
  destruct (md_output w) as [|f files] eqn:Hmd; [done|]. simpl length. run.
  cbn [List.find]. fold (has_ext w "cpt") (has_ext w "log").
  rewrite Hcpt, Hlog. cbn [negb]. rewrite Hsave. run.
  rewrite Hc. run. rewrite Hl. run. rewrite Hr. run.
  destruct rows as [|row rows' _] using rev_ind.
  - cbn [map last]. run. eexists. split; [reflexivity|]. split; [done|].
    run. destruct (decide (@nil (Z * float) = [])); [|done]. apply last_snoc.
  - rewrite map_app. cbn [map]. rewrite last_snoc. run.
    destruct (Z.ltb_spec (Z.of_nat (length (rows' ++ [row]))) (MIN_LOGGING_ENTRIES c));
      [|lia].
    run. eexists. split; [reflexivity|]. split; [done|].
    run. destruct (decide (rows' ++ [row] = [])) as [Heq|_]; [by destruct rows'|].
    apply last_snoc.
Qed.

(* ================================================================== *)
(** * Instances of the further properties                              *)
(* ================================================================== *)

Import MoreScenarios.

Lemma file_provides_extension_witness :
  has_ext renamed "cpt" = true /\ has_ext renamed "log" = true.
Proof.
  split.
  - apply (file_provides_extension renamed "run.2" "cpt" "checkpoint-bytes");
      [reflexivity | done | left; apply elem_of_cons; by left].
  - apply (file_provides_extension renamed "" "log" "log-bytes");
      [reflexivity | done | right; apply elem_of_cons; right; apply elem_of_cons; by left].
Defined.

Lemma process_md_output_missing_files_witness :
  save_files empty_checkpoint = Raise (Exn LibraryError "No space left on device") /\
  exists m, process_md_output consts empty_checkpoint fresh
            = (Ok false,
               add_log m
                 (set_md_outputs_exts [("log", "md_0_1.log")]
                    (set_miner_seed 1337
                       (set_current_state "md_0_1"
                          (set_hotkey_alias "5F3sa2TJ"
                             (set_pdb_location "1ubq/1ubq.pdb" fresh)))))).
Proof.
  split; [reflexivity|].
  change (exists m, process_md_output consts empty_checkpoint fresh
            = (Ok false,
               add_log m
                 (set_md_outputs_exts (extension_map empty_checkpoint)
                    (set_miner_seed (seed empty_checkpoint)
                       (set_current_state (state empty_checkpoint)
                          (set_hotkey_alias (str_prefix 8 (hotkey empty_checkpoint))
                             (set_pdb_location (data_pdb_location empty_checkpoint)
                                fresh))))))).
  apply (process_md_output_missing_files consts empty_checkpoint fresh "cpt"); [by left|].
  intros name content Hin Hne.
  apply elem_of_cons in Hin as [[= -> ->]|Hin]; [done|].
  apply list_elem_of_singleton in Hin as [= -> ->]. vm_compute. discriminate.
Defined.

Lemma process_md_output_raises_only_from_save_files_witness :
  fst (process_md_output consts disk_full fresh)
  = Raise (Exn LibraryError "No space left on device") /\
  save_files disk_full = Raise (Exn LibraryError "No space left on device").
Proof.
  assert (H : fst (process_md_output consts disk_full fresh)
              = Raise (Exn LibraryError "No space left on device"))
    by (vm_compute; reflexivity).
  split; [exact H|].
  exact (process_md_output_raises_only_from_save_files _ _ _ _ H).
Defined.

Lemma process_md_output_true_invariant_witness :
  fst (process_md_output consts honest fresh) = Ok true /\
  log_step (snd (process_md_output consts honest fresh)) = 1000 /\
  cpt_step (snd (process_md_output consts honest fresh)) = 900 /\
  MIN_SIMULATION_STEPS consts
  <= Np.sub64 (log_step (snd (process_md_output consts honest fresh)))
              (cpt_step (snd (process_md_output consts honest fresh))).
Proof.
  assert (H : process_md_output consts honest fresh
              = (Ok true, snd (process_md_output consts honest fresh)))
    by (vm_compute; reflexivity).
  do 3 (split; [vm_compute; reflexivity|]).
  exact (proj1 (proj2 (proj2 (proj2 (proj2
           (process_md_output_true_invariant _ _ _ _ H)))))).
Defined.

Lemma short_replay_rejected_witness :
  steps_to_run_of consts (log_step ten_steps_behind) (cpt_step ten_steps_behind) = 10 /\
  fst (is_run_valid consts honest ten_steps_behind)
  = Ok (false, [], [], "exceptions must derive from BaseException"%string).
Proof.
  split; [reflexivity|].
  destruct (is_run_valid consts honest ten_steps_behind) as [[r|E] s'] eqn:H.
  - apply short_replay_rejected in H as ->; [reflexivity|]. vm_compute. reflexivity.
  - vm_compute in H. discriminate.
Defined.

(** A trajectory that explodes after its first 50 samples passes the
    gradient check. *)
Lemma checks_read_first_50_samples_witness :
  check_gradient (map replayed (seq 0 50) ++ [1000000%float; 2000000%float]) = true /\
  compare_state_to_cpt consts (map replayed (seq 0 50) ++ [0%float])
                       (map replayed (seq 0 50) ++ [1000000%float; 2000000%float])
  = compare_state_to_cpt consts (map replayed (seq 0 50)) (map replayed (seq 0 50)).
Proof.
  destruct (checks_read_first_50_samples consts (map replayed (seq 0 50))
              (map replayed (seq 0 50)) [1000000%float; 2000000%float] [0%float])
    as [Hg Hc]; [vm_compute; lia | vm_compute; lia |].
  split; [|exact Hc]. rewrite Hg. vm_compute. reflexivity.
Defined.

Lemma mismatched_log_rejected_witness :
  map fst (take 3 fine_log) = [0; 5; 10] /\
  exists reason s',
    is_run_valid consts fine (after_intake fine) = (Ok (false, [], [], reason), s').
Proof.
  split; [reflexivity|].
  apply (mismatched_log_rejected consts fine (after_intake fine)
           (map replayed (seq 91 10)) (map replayed (seq 91 10)) 900);
    try (vm_compute; reflexivity); vm_compute; lia.
Defined.

Lemma evaluate_through_openmm_scores_zero_witness :
  fst (_evaluate consts through_openmm fresh) = Ok 0%float.
Proof.
  destruct (_evaluate consts through_openmm fresh) as [[score|E] s'] eqn:H.
  - apply (evaluate_through_openmm_scores_zero consts through_openmm fresh s' score
             (engine [0]) (Some 7) false config eq_refl) in H as ->.
    reflexivity.
  - vm_compute in H. discriminate.
Defined.

Lemma cutoff_written_back_witness :
  config !! "cutoff"%string = Some (Simulation.VFloat 1.5) /\
  snd (Simulation.create_simulation (engine [0]) (Some 7) false config)
  = <["cutoff"%string := Simulation.VFloat (2 / 2)%float]> config.
Proof.
  split; [vm_compute; reflexivity|].
  apply (cutoff_written_back (engine [0]) (Some 7) false config
           (Simulation.VStr "charmm36.xml") (Simulation.VStr "charmm36/water.xml")
           (Simulation.VFloat 1) (Simulation.VStr "cube") (Simulation.VFloat 1.5) 2%float);
    try reflexivity; vm_compute; reflexivity.
Defined.


Lemma insufficient_logging_rejected_witness :
  exists s',
    process_md_output consts three_rows fresh = (Ok false, s') /\
    cpt_step s' = 0 /\
    last (logged s') = Some
      (Warning "Miner 5F3sa2TJ did not run enough steps in the simulation... Skipping!").
Proof.
  apply (insufficient_logging_rejected consts three_rows fresh 900 (take 3 full_log));
    try reflexivity; try done.
Defined.

Lemma timeout_after_failures_witness :
  Validators.timeout (Validators.after_responses (failures 8) new_validator) = 65536 /\
  Validators.timeout (Validators.after_responses (failures 9) new_validator) = 86400 /\
  Validators.timeout (Validators.after_responses (failures 30) new_validator) = 86400.
Proof.
  assert (Hfail : forall n r, r ∈ failures n -> snd r <> 200).
  { intros n r (k & -> & _)%list_elem_of_fmap. done. }
  split; [|split].
  - exact (proj1 (timeout_after_failures (failures 8) new_validator
                    ltac:(done) (Hfail 8%nat))).
  - exact (proj1 (timeout_after_failures (failures 9) new_validator
                    ltac:(done) (Hfail 9%nat))).
  - apply (timeout_after_failures (failures 30) new_validator ltac:(done) (Hfail 30%nat));
      [reflexivity | vm_compute; lia].
Defined.

Lemma timeout_stays_in_range_witness :
  1 <= Validators.timeout
         (Validators.after_responses (failures 3 ++ [(1700000300%float, 200)] ++ failures 2)
            new_validator) <= 86400 /\
  Validators.timeout
    (Validators.after_responses (failures 3 ++ [(1700000300%float, 200)]) new_validator) = 1.
Proof.
  split.
  - apply (timeout_stays_in_range _ new_validator). done.
  - apply (timeout_stays_in_range (failures 3) new_validator). done.
Defined.
